(** * raw_from_api_to_s3: the earthquake ingestion DAG

    A shallow embedding of [dags/raw_from_api_to_s3.py] and the properties
    of its window calculation, query assembly and extraction task.

    The DAG file contains two functions, [get_dates] and
    [get_and_transfer_api_data_to_s3], and a handful of module-level
    constants, two of which are read from the Airflow Variable store when
    the module is loaded.  The task talks to two collaborators, the DuckDB
    engine and the scheduler; both are modelled only as far as the task
    observes them. *)

From Stdlib Require Import ZArith String Ascii List Lia Bool DecimalString.
From stdpp Require Import gmap strings.

Local Open Scope string_scope.
Local Open Scope Z_scope.

(** ** Datetimes as the scheduler hands them over

    [context["data_interval_start"]] is a pendulum [DateTime]: the calendar
    fields of an aware [datetime.datetime] together with the UTC offset of its
    time zone.  The arithmetic below is that of CPython's [datetime] module. *)

Module Pendulum.

Record DateTime : Type := mkDateTime {
  year : Z;
  month : Z;
  day : Z;
  hour : Z;
  minute : Z;
  second : Z;
  microsecond : Z;
  utcoffset : Z  (* seconds east of UTC *)
}.

(** [_is_leap], [_days_before_year], [_days_in_month],
    [_days_before_month] and [_ymd2ord] of [datetime.py]. *)
Definition is_leap (y : Z) : bool :=
  (y mod 4 =? 0) && (negb (y mod 100 =? 0) || (y mod 400 =? 0)).

Definition days_before_year (y : Z) : Z :=
  let y' := y - 1 in y' * 365 + y' / 4 - y' / 100 + y' / 400.

Definition DAYS_IN_MONTH (m : Z) : Z :=
  match m with
  | 1 => 31 | 2 => 28 | 3 => 31 | 4 => 30 | 5 => 31 | 6 => 30
  | 7 => 31 | 8 => 31 | 9 => 30 | 10 => 31 | 11 => 30 | 12 => 31
  | _ => -1
  end.

Definition DAYS_BEFORE_MONTH (m : Z) : Z :=
  match m with
  | 1 => 0 | 2 => 31 | 3 => 59 | 4 => 90 | 5 => 120 | 6 => 151
  | 7 => 181 | 8 => 212 | 9 => 243 | 10 => 273 | 11 => 304 | 12 => 334
  | _ => -1
  end.

Definition days_in_month (y m : Z) : Z :=
  if (m =? 2) && is_leap y then 29 else DAYS_IN_MONTH m.

Definition days_before_month (y m : Z) : Z :=
  DAYS_BEFORE_MONTH m + (if (2 <? m) && is_leap y then 1 else 0).

Definition ymd2ord (y m d : Z) : Z :=
  days_before_year y + days_before_month y m + d.

(** The field ranges the [datetime] constructor enforces
    ([MINYEAR = 1], [MAXYEAR = 9999]); offsets are strictly within a day. *)
Definition wf (dt : DateTime) : Prop :=
  1 <= year dt <= 9999 /\
  1 <= month dt <= 12 /\
  1 <= day dt <= days_in_month (year dt) (month dt) /\
  0 <= hour dt < 24 /\
  0 <= minute dt < 60 /\
  0 <= second dt < 60 /\
  0 <= microsecond dt < 1000000 /\
  -86400 < utcoffset dt < 86400.

Definition wfb (dt : DateTime) : bool :=
  (1 <=? year dt) && (year dt <=? 9999) &&
  (1 <=? month dt) && (month dt <=? 12) &&
  (1 <=? day dt) && (day dt <=? days_in_month (year dt) (month dt)) &&
  (0 <=? hour dt) && (hour dt <? 24) &&
  (0 <=? minute dt) && (minute dt <? 60) &&
  (0 <=? second dt) && (second dt <? 60) &&
  (0 <=? microsecond dt) && (microsecond dt <? 1000000) &&
  (-86400 <? utcoffset dt) && (utcoffset dt <? 86400).

(** The point in time a datetime denotes, in microseconds since the start
    of ordinal day 0, UTC.  Aware datetimes compare by this value. *)
Definition local_seconds (dt : DateTime) : Z :=
  ((ymd2ord (year dt) (month dt) (day dt) * 24 + hour dt) * 60
     + minute dt) * 60 + second dt.

Definition instant (dt : DateTime) : Z :=
  (local_seconds dt - utcoffset dt) * 1000000 + microsecond dt.

Definition ltb (a b : DateTime) : bool := instant a <? instant b.
Definition leb (a b : DateTime) : bool := instant a <=? instant b.

(** Calendar dates in their natural order. *)
Definition date : Type := Z * Z * Z.

Definition date_of (dt : DateTime) : date := (year dt, month dt, day dt).

Definition date_leb (a b : date) : bool :=
  let '(y1, m1, d1) := a in
  let '(y2, m2, d2) := b in
  (y1 <? y2) || ((y1 =? y2) && ((m1 <? m2) || ((m1 =? m2) && (d1 <=? d2)))).

(** *** Formatting

    Python's ["{:d}"] and ["{:02d}"] on an integer. *)
Definition fmt_d (z : Z) : string := NilZero.string_of_int (Z.to_int z).

Definition fmt_02d (z : Z) : string :=
  let s := fmt_d z in
  if (String.length s <? 2)%nat then "0" ++ s else s.

Definition drop2 (s : string) : string :=
  match s with
  | String _ (String _ r) => r
  | _ => ""
  end.

(** [DateTime.format]: the format string is scanned left to right, the
    longest token first.  The numeric year, month and day tokens are
    interpreted with the formatter's rules ([YYYY] and [Y] print the year
    unpadded, [YY] drops its first two digits, [MM] and [DD] pad to two
    digits, [M] and [D] do not pad); every other character is copied.
    Tokens for names, day of year and time of day do not occur in this
    program and are not modelled. *)
Fixpoint format (dt : DateTime) (fmt : string) : string :=
  match fmt with
  | String "Y" (String "Y" (String "Y" (String "Y" r))) =>
      fmt_d (year dt) ++ format dt r
  | String "Y" (String "Y" r) => drop2 (fmt_d (year dt)) ++ format dt r
  | String "Y" r => fmt_d (year dt) ++ format dt r
  | String "M" (String "M" r) => fmt_02d (month dt) ++ format dt r
  | String "M" r => fmt_d (month dt) ++ format dt r
  | String "D" (String "D" r) => fmt_02d (day dt) ++ format dt r
  | String "D" r => fmt_d (day dt) ++ format dt r
  | String c r => String c (format dt r)
  | EmptyString => EmptyString
  end.

(** *** Reading a [YYYY-MM-DD] string back *)
Definition is_digit (c : ascii) : bool :=
  let n := N_of_ascii c in ((48 <=? n) && (n <=? 57))%N.

Definition digit_val (c : ascii) : Z := Z.of_N (N_of_ascii c) - 48.

Definition is_ymd (s : string) : bool :=
  match s with
  | String y1 (String y2 (String y3 (String y4 (String h1
      (String m1 (String m2 (String h2
        (String d1 (String d2 EmptyString))))))))) =>
      is_digit y1 && is_digit y2 && is_digit y3 && is_digit y4 &&
      Ascii.eqb h1 "-" &&
      is_digit m1 && is_digit m2 &&
      Ascii.eqb h2 "-" &&
      is_digit d1 && is_digit d2
  | _ => false
  end.

Definition parse_ymd (s : string) : option date :=
  match s with
  | String y1 (String y2 (String y3 (String y4 (String _
      (String m1 (String m2 (String _
        (String d1 (String d2 EmptyString))))))))) =>
      if is_ymd s
      then Some (((digit_val y1 * 10 + digit_val y2) * 10 + digit_val y3) * 10
                   + digit_val y4,
                 digit_val m1 * 10 + digit_val m2,
                 digit_val d1 * 10 + digit_val d2)
      else None
  | _ => None
  end.

End Pendulum.

Import Pendulum.

(** ** Exceptions, context values and the world the task runs in *)

(** A Python exception: its class and its first argument.  For the
    exceptions of the engine only the class is meant; their messages
    are the engine's own. *)
Record exn : Type := Exn { exn_class : string; exn_arg : string }.

(** What a context entry may hold: a pendulum datetime; an object of a
    type without a [format] attribute, such as [None] or an [int], given
    by the name of its type; or any other object, such as a [str], given
    by what its [format] method returns (as an f-string renders it) or
    raises when called with one argument. *)
Inductive value : Type :=
| VDateTime (dt : DateTime)
| VObject (type_name : string)
| VFormats (method : string -> exn + string).

(** A [str] without braces: [format] returns it as it is. *)
Definition plain_str (s : string) : value := VFormats (fun _ => inr s).

(** One engine connection: its settings and loaded extensions. *)
Record Connection : Type := mkConnection {
  settings : gmap string string;
  extensions : gset string
}.

(** The world holds what the code reads and changes.  [connections] are
    the connections opened by [duckdb.connect()] and not closed by a
    call of [close]; what the interpreter releases on its own once an
    object is dropped is outside this record. *)
Record World : Type := mkWorld {
  variables : gmap string string;       (* the Airflow Variable store *)
  variable_reads : list string;         (* names looked up so far, oldest first *)
  objects : gmap string string;         (* object storage: URL to rows *)
  fetched : list string;                (* URLs read from the source, oldest first *)
  connections : gmap nat Connection;    (* opened and not closed by [close] *)
  next_connection : nat;
  log : list string                     (* [logging.info] lines, oldest first *)
}.

(** Computations that read and change the world and may raise. *)
Definition M (A : Type) : Type := World -> (exn + A) * World.

#[global] Instance M_ret : MRet M := fun _ a w => (inr a, w).
#[global] Instance M_bind : MBind M := fun _ _ f m w =>
  match m w with
  | (inr a, w') => f a w'
  | (inl e, w') => (inl e, w')
  end.

Definition lift {A : Type} (r : exn + A) : M A := fun w => (r, w).

(** ** Collaborators *)

(** [Variable.get(key)] without a default. *)
Definition Variable_get (key : string) : M string := fun w =>
  let w' := mkWorld (variables w) (variable_reads w ++ [key]) (objects w)
                    (fetched w) (connections w) (next_connection w) (log w) in
  match variables w !! key with
  | Some v => (inr v, w')
  | None => (inl (Exn "KeyError" ("Variable " ++ key ++ " does not exist")), w')
  end.

Definition logging_info (line : string) : M unit := fun w =>
  (inr tt, mkWorld (variables w) (variable_reads w) (objects w) (fetched w)
                   (connections w) (next_connection w) (log w ++ [line])).

(** The statements the task sends to the engine. *)
Inductive statement : Type :=
| SET (name val : string)
| INSTALL (ext : string)
| LOAD (ext : string)
| COPY_read_csv_auto_TO (url target : string).

(** *** Reading the SQL text

    [con.sql] is given one text.  The engine reads it before it runs
    anything: comments run from [--] to the end of the line, a quoted
    string runs from one apostrophe to the next one that is not doubled,
    statements end at [;].  Of the statements, the forms the task's text
    is made of are recognised; anything else is a syntax error, and so is
    a quoted string that does not end. *)
Inductive token : Type :=
| TWord (w : string)
| TStr (s : string)
| TSym (c : ascii).

Inductive lex_state : Type :=
| Idle
| Dash
| InComment
| InWord (acc : string)
| InStr (acc : string)
| StrQuote (acc : string).

Definition is_space (c : ascii) : bool :=
  Ascii.eqb c " " || Ascii.eqb c "010" || Ascii.eqb c "009" || Ascii.eqb c "013".

Definition is_symbol (c : ascii) : bool :=
  Ascii.eqb c ";" || Ascii.eqb c "(" || Ascii.eqb c ")" || Ascii.eqb c "="
  || Ascii.eqb c "*" || Ascii.eqb c ",".

Definition snoc (s : string) (c : ascii) : string := s ++ String c "".

Definition lex_idle (c : ascii) : lex_state * list token :=
  if is_space c then (Idle, [])
  else if Ascii.eqb c "'" then (InStr "", [])
  else if Ascii.eqb c "-" then (Dash, [])
  else if is_symbol c then (Idle, [TSym c])
  else (InWord (String c ""), []).

Definition lex_word (acc : string) (c : ascii) : lex_state * list token :=
  if is_space c then (Idle, [TWord acc])
  else if Ascii.eqb c "'" then (InStr "", [TWord acc])
  else if is_symbol c then (Idle, [TWord acc; TSym c])
  else (InWord (snoc acc c), []).

Definition lex_step (st : lex_state) (c : ascii) : lex_state * list token :=
  match st with
  | Idle => lex_idle c
  | Dash => if Ascii.eqb c "-" then (InComment, []) else lex_word "-" c
  | InComment => if Ascii.eqb c "010" then (Idle, []) else (InComment, [])
  | InWord acc => lex_word acc c
  | InStr acc =>
      if Ascii.eqb c "'" then (StrQuote acc, []) else (InStr (snoc acc c), [])
  | StrQuote acc =>
      if Ascii.eqb c "'" then (InStr (snoc acc "'"), [])
      else let '(st', ts) := lex_idle c in (st', TStr acc :: ts)
  end.

Fixpoint lex_run (st : lex_state) (s : string) : lex_state * list token :=
  match s with
  | EmptyString => (st, [])
  | String c r =>
      let '(st1, t1) := lex_step st c in
      let '(st2, t2) := lex_run st1 r in
      (st2, (t1 ++ t2)%list)
  end.

Definition ParserException (msg : string) : exn := Exn "ParserException" msg.

Definition lex_end (st : lex_state) : exn + list token :=
  match st with
  | Idle | InComment => inr []
  | Dash => inr [TWord "-"]
  | InWord acc => inr [TWord acc]
  | StrQuote acc => inr [TStr acc]
  | InStr _ => inl (ParserException "unterminated quoted string")
  end.

Definition lex (text : string) : exn + list token :=
  let '(st, ts) := lex_run Idle text in
  match lex_end st with
  | inl e => inl e
  | inr t => inr (ts ++ t)%list
  end.

Definition is_semicolon (t : token) : bool :=
  match t with TSym c => Ascii.eqb c ";" | _ => false end.

Fixpoint split_statements (ts : list token) : list (list token) :=
  match ts with
  | [] => [[]]
  | t :: r =>
      if is_semicolon t then [] :: split_statements r
      else match split_statements r with
           | x :: xs => (t :: x) :: xs
           | [] => [[t]]
           end
  end.

Definition word_is (w : string) (t : token) : bool :=
  match t with TWord x => String.eqb x w | _ => false end.

Definition sym_is (c : ascii) (t : token) : bool :=
  match t with TSym x => Ascii.eqb x c | _ => false end.

Definition parse_statement (ts : list token) : exn + statement :=
  let syntax_error := inl (ParserException "syntax error") in
  match ts with
  | [k; TWord name; e; TStr val] | [k; TWord name; e; TWord val] =>
      if word_is "SET" k && sym_is "=" e then inr (SET name val)
      else syntax_error
  | [k; TWord ext] =>
      if word_is "INSTALL" k then inr (INSTALL ext)
      else if word_is "LOAD" k then inr (LOAD ext)
      else syntax_error
  | [k1; p1; k2; star; k3; f; p2; TStr url; p3; k4; TWord _; p4; k5; TStr target] =>
      if word_is "COPY" k1 && sym_is "(" p1 && word_is "SELECT" k2
         && sym_is "*" star && word_is "FROM" k3 && word_is "read_csv_auto" f
         && sym_is "(" p2 && sym_is ")" p3 && word_is "AS" k4 && sym_is ")" p4
         && word_is "TO" k5
      then inr (COPY_read_csv_auto_TO url target)
      else syntax_error
  | _ => syntax_error
  end.

Fixpoint parse_statements (segments : list (list token)) : exn + list statement :=
  match segments with
  | [] => inr []
  | [] :: rest => parse_statements rest
  | seg :: rest =>
      match parse_statement seg with
      | inl e => inl e
      | inr st =>
          match parse_statements rest with
          | inl e => inl e
          | inr sts => inr (st :: sts)
          end
      end
  end.

Definition parse_sql (text : string) : exn + list statement :=
  match lex text with
  | inl e => inl e
  | inr ts => parse_statements (split_statements ts)
  end.

(** What the task cannot decide itself: whether an extension installs,
    what the remote source answers for a URL (the rows, or the failure of
    the fetch or of the CSV reader), and whether the object store accepts
    a write made with the connection's settings. *)
Record Engine : Type := mkEngine {
  install_extension : string -> option exn;
  read_csv_auto : string -> exn + string;
  put_object : gmap string string -> string -> string -> option exn
}.

Definition set_connection (c : nat) (k : Connection) (w : World) : World :=
  mkWorld (variables w) (variable_reads w) (objects w) (fetched w)
          (<[c := k]> (connections w)) (next_connection w) (log w).

Definition set_object (target rows : string) (w : World) : World :=
  mkWorld (variables w) (variable_reads w) (<[target := rows]> (objects w))
          (fetched w) (connections w) (next_connection w) (log w).

Definition add_fetched (url : string) (w : World) : World :=
  mkWorld (variables w) (variable_reads w) (objects w) (fetched w ++ [url])
          (connections w) (next_connection w) (log w).

Section Engine.

Context (E : Engine).

(** [duckdb.connect()]: a fresh in-memory connection.  It is recorded
    as open until [con_close] is called on it. *)
Definition duckdb_connect : M nat := fun w =>
  let c := next_connection w in
  (inr c, mkWorld (variables w) (variable_reads w) (objects w) (fetched w)
                  (<[c := mkConnection ∅ ∅]> (connections w)) (S c) (log w)).

(** [con.close()]; closing twice is harmless. *)
Definition con_close (c : nat) : M unit := fun w =>
  (inr tt, mkWorld (variables w) (variable_reads w) (objects w) (fetched w)
                   (delete c (connections w)) (next_connection w) (log w)).

Definition exec_statement (c : nat) (st : statement) : M unit := fun w =>
  match connections w !! c with
  | None => (inl (Exn "ConnectionException" "Connection already closed!"), w)
  | Some k =>
      match st with
      | SET name val =>
          (inr tt, set_connection c (mkConnection (<[name := val]> (settings k))
                                                  (extensions k)) w)
      | INSTALL ext =>
          match install_extension E ext with
          | Some e => (inl e, w)
          | None => (inr tt, w)
          end
      | LOAD ext =>
          (inr tt, set_connection c (mkConnection (settings k)
                                                  ({[ext]} ∪ extensions k)) w)
      | COPY_read_csv_auto_TO url target =>
          let w1 := add_fetched url w in
          match read_csv_auto E url with
          | inl e => (inl e, w1)
          | inr rows =>
              match put_object E (settings k) target rows with
              | Some e => (inl e, w1)
              | None => (inr tt, set_object target rows w1)
              end
          end
      end
  end.

(** The statements run in order; the first failure is raised and the
    rest is not run. *)
Fixpoint exec_script (c : nat) (script : list statement) : M unit :=
  match script with
  | [] => mret tt
  | st :: rest => exec_statement c st ;; exec_script c rest
  end.

(** [con.sql(text)]: the text is read first, and a text that cannot be
    read raises before any of it has run. *)
Definition con_sql (c : nat) (text : string) : M unit :=
  match parse_sql text with
  | inl e => fun w => (inl e, w)
  | inr statements => exec_script c statements
  end.

End Engine.

(** The effect of a script on one connection, on the object store and on
    the list of fetched URLs, apart from the world around them. *)
Fixpoint run_script (E : Engine) (k : Connection) (objs : gmap string string)
    (urls : list string) (script : list statement)
  : (exn + unit) * Connection * gmap string string * list string :=
  match script with
  | [] => (inr tt, k, objs, urls)
  | SET name val :: rest =>
      run_script E (mkConnection (<[name := val]> (settings k)) (extensions k))
                 objs urls rest
  | INSTALL ext :: rest =>
      match install_extension E ext with
      | Some e => (inl e, k, objs, urls)
      | None => run_script E k objs urls rest
      end
  | LOAD ext :: rest =>
      run_script E (mkConnection (settings k) ({[ext]} ∪ extensions k))
                 objs urls rest
  | COPY_read_csv_auto_TO url target :: rest =>
      match read_csv_auto E url with
      | inl e => (inl e, k, objs, (urls ++ [url])%list)
      | inr rows =>
          match put_object E (settings k) target rows with
          | Some e => (inl e, k, objs, (urls ++ [url])%list)
          | None => run_script E k (<[target := rows]> objs)
                               (urls ++ [url])%list rest
          end
      end
  end.

(** ** The DAG module *)

Definition OWNER : string := "a.ryabichev".
Definition DAG_ID : string := "raw_from_api_to_s3".
Definition LAYER : string := "raw".
Definition SOURCE : string := "earthquake".

(** The module-level names bound from the Variable store. *)
Record Globals : Type := mkGlobals {
  ACCESS_KEY : string;
  SECRET_KEY : string
}.

(** Executing the module body: the two [Variable.get] assignments. *)
Definition load_module : M Globals :=
  ak ← Variable_get "access_key";
  sk ← Variable_get "secret_key";
  mret (mkGlobals ak sk).

(** [args["start_date"]], [args["retries"]] and the retry delay in seconds. *)
Definition args_start_date : DateTime := mkDateTime 2025 10 20 0 0 0 0 10800.
Definition args_retries : Z := 3.
Definition args_retry_delay : Z := 3600.

Definition context_lookup (context : gmap string value) (key : string)
  : exn + value :=
  match context !! key with
  | Some v => inr v
  | None => inl (Exn "KeyError" key)
  end.

(** [v.format(fmt)] on a context entry. *)
Definition value_format (v : value) (fmt : string) : exn + string :=
  match v with
  | VDateTime dt => inr (format dt fmt)
  | VObject type_name =>
      inl (Exn "AttributeError"
               ("'" ++ type_name ++ "' object has no attribute 'format'"))
  | VFormats method => method fmt
  end.

Definition get_dates (context : gmap string value) : exn + (string * string) :=
  match context_lookup context "data_interval_start" with
  | inl e => inl e
  | inr v1 =>
      match value_format v1 "YYYY-MM-DD" with
      | inl e => inl e
      | inr start_date =>
          match context_lookup context "data_interval_end" with
          | inl e => inl e
          | inr v2 =>
              match value_format v2 "YYYY-MM-DD" with
              | inl e => inl e
              | inr end_date => inr (start_date, end_date)
              end
          end
      end
  end.

(** The two interpolated strings of the extraction statement. *)
Definition source_url (start_date end_date : string) : string :=
  "https://earthquake.usgs.gov/fdsnws/event/1/query?format=csv&starttime="
    ++ start_date ++ "&endtime=" ++ end_date.

(** The target of [COPY ... TO], with the three names the f-string
    interpolates as parameters; the module fixes the first two. *)
Definition destination_of (layer source start_date : string) : string :=
  "s3://prod/" ++ layer ++ "/" ++ source ++ "/" ++ start_date ++ "/"
    ++ start_date ++ "_00-00-00.gz.parquet".

Definition destination (start_date : string) : string :=
  destination_of LAYER SOURCE start_date.

(** The text of the f-string passed to [con.sql], with its holes: the
    two credentials, the URL inside [read_csv_auto] and the target after
    [TO]. *)
Definition sql_template (access_key secret_key url target : string) : string :=
  "
        -- Настройка часового пояса
        SET TIMEZONE='UTC';
        
        -- Устанавливаем расширение для работы с HTTP и S3
        INSTALL httpfs;
        LOAD httpfs;
        
        -- Настройка подключения к MinIO (S3-совместимое хранилище)
        SET s3_url_style = 'path';           
        SET s3_endpoint = 'minio:9000';      
        SET s3_access_key_id = '"
  ++ access_key ++
  "';     
        SET s3_secret_access_key = '"
  ++ secret_key ++
  "'; 
        SET s3_use_ssl = FALSE;             

        -- Копируем данные из API в S3
        COPY
        (
            SELECT
                *
            FROM
                -- Читаем CSV данные из USGS API за указанный период
                read_csv_auto('"
  ++ url ++
  "') AS res
        ) 
        -- Сохраняем в MinIO в формате Parquet
        TO '"
  ++ target ++
  "';
        ".

Definition sql_text (G : Globals) (start_date end_date : string) : string :=
  sql_template (ACCESS_KEY G) (SECRET_KEY G)
               (source_url start_date end_date) (destination start_date).

(** The statements of that text when nothing interpolated holds an
    apostrophe; [SET] takes the setting and its value, quoted or not in
    the text. *)
Definition script (G : Globals) (start_date end_date : string)
  : list statement :=
  [ SET "TIMEZONE" "UTC";
    INSTALL "httpfs";
    LOAD "httpfs";
    SET "s3_url_style" "path";
    SET "s3_endpoint" "minio:9000";
    SET "s3_access_key_id" (ACCESS_KEY G);
    SET "s3_secret_access_key" (SECRET_KEY G);
    SET "s3_use_ssl" "FALSE";
    COPY_read_csv_auto_TO (source_url start_date end_date)
                          (destination start_date) ].

(** The two log lines of a run. *)
Definition start_line (start_date end_date : string) : string :=
  "💻 Start load for dates: " ++ start_date ++ "/" ++ end_date.

Definition success_line (start_date : string) : string :=
  "✅ Download for date success: " ++ start_date.

(** The connection as the script leaves it before the [COPY]. *)
Definition configured (G : Globals) : Connection :=
  mkConnection
    (<["s3_use_ssl" := "FALSE"]>
      (<["s3_secret_access_key" := SECRET_KEY G]>
        (<["s3_access_key_id" := ACCESS_KEY G]>
          (<["s3_endpoint" := "minio:9000"]>
            (<["s3_url_style" := "path"]>
              (<["TIMEZONE" := "UTC"]> ∅))))))
    ({["httpfs"]} ∪ ∅).

(** The [(url, target)] pairs of the [COPY] statements of a script. *)
Fixpoint copies (script : list statement) : list (string * string) :=
  match script with
  | [] => []
  | COPY_read_csv_auto_TO url target :: rest => (url, target) :: copies rest
  | _ :: rest => copies rest
  end.

Definition get_and_transfer_api_data_to_s3 (E : Engine) (G : Globals)
    (context : gmap string value) : M unit :=
  '(start_date, end_date) ← lift (get_dates context);
  logging_info (start_line start_date end_date) ;;
  con ← duckdb_connect;
  con_sql E con (sql_text G start_date end_date) ;;
  con_close con ;;
  logging_info (success_line start_date).

(** The context of a run, as far as the task reads it; the scheduler adds
    further entries. *)
Definition interval_context (a b : DateTime) : gmap string value :=
  <["data_interval_end" := VDateTime b]>
    (<["data_interval_start" := VDateTime a]> ∅).

(** ** Reading URLs

    Python's [needle in hay], [str.split(sep)] and [str.removeprefix], used
    to say what a URL contains and which bucket and key an [s3://] URL
    names. *)
Fixpoint contains (needle hay : string) : bool :=
  String.prefix needle hay ||
  match hay with
  | EmptyString => false
  | String _ r => contains needle r
  end.

Fixpoint split_on (sep : ascii) (s : string) : list string :=
  match s with
  | EmptyString => [EmptyString]
  | String c r =>
      if Ascii.eqb c sep then EmptyString :: split_on sep r
      else match split_on sep r with
           | x :: xs => String c x :: xs
           | [] => [String c EmptyString]
           end
  end.

Fixpoint strip_prefix (p s : string) : option string :=
  match p, s with
  | EmptyString, _ => Some s
  | String a p', String b s' => if Ascii.eqb a b then strip_prefix p' s' else None
  | String _ _, EmptyString => None
  end.

Fixpoint break_at (sep : ascii) (s : string) : option (string * string) :=
  match s with
  | EmptyString => None
  | String c r =>
      if Ascii.eqb c sep then Some (EmptyString, r)
      else match break_at sep r with
           | Some (x, y) => Some (String c x, y)
           | None => None
           end
  end.

(** No character of [s] is [sep]. *)
Fixpoint free_of (sep : ascii) (s : string) : bool :=
  match s with
  | EmptyString => true
  | String c r => negb (Ascii.eqb c sep) && free_of sep r
  end.

(** The [name=value] pairs after the [?] of a URL, in order. *)
Definition query_params (url : string) : list (string * string) :=
  match break_at "?" url with
  | Some (_, q) =>
      map (fun kv => match break_at "=" kv with
                     | Some (k, v) => (k, v)
                     | None => (kv, EmptyString)
                     end)
          (split_on "&" q)
  | None => []
  end.

(** Bucket and object key of an [s3://bucket/key] URL. *)
Definition s3_location (url : string) : option (string * string) :=
  match strip_prefix "s3://" url with
  | Some r => break_at "/" r
  | None => None
  end.

(** Decimal shapes: a string of exactly four (two) digits denoting [v]. *)
Definition digits4 (s : string) (v : Z) : bool :=
  match s with
  | String a (String b (String c (String d EmptyString))) =>
      is_digit a && is_digit b && is_digit c && is_digit d &&
      (((digit_val a * 10 + digit_val b) * 10 + digit_val c) * 10 + digit_val d =? v)
  | _ => false
  end.

Definition digits2 (s : string) (v : Z) : bool :=
  match s with
  | String a (String b EmptyString) =>
      is_digit a && is_digit b && (digit_val a * 10 + digit_val b =? v)
  | _ => false
  end.

(** No apostrophe in a string; the credentials and the window of a run
    are plain when none of the four interpolated strings holds one, so
    that each stays inside its quoted string of the text. *)
Definition quote_free (x : string) : bool := free_of "'" x.

Definition plain_run (G : Globals) (context : gmap string value) : Prop :=
  quote_free (ACCESS_KEY G) = true /\
  quote_free (SECRET_KEY G) = true /\
  forall start_date end_date,
    get_dates context = inr (start_date, end_date) ->
    quote_free start_date = true /\ quote_free end_date = true.

(** ** Concrete runs used below *)

Definition empty_world : World := mkWorld ∅ [] ∅ [] ∅ 0%nat [].

Definition scenario_start : DateTime := mkDateTime 2025 10 20 0 0 0 0 10800.
Definition scenario_end : DateTime := mkDateTime 2025 10 21 0 0 0 0 10800.

(** An engine whose source always answers with the same rows, and one whose
    source answers every request with an HTTP error. *)
Definition healthy_engine : Engine :=
  mkEngine (fun _ => None) (fun _ => inr "time,latitude,longitude,mag") (fun _ _ _ => None).

Definition failing_engine : Engine :=
  mkEngine (fun _ => None)
           (fun url => inl (Exn "HTTPException" ("HTTP Error: 503 for " ++ url)))
           (fun _ _ _ => None).

(** An engine whose source answers each URL with rows naming that URL. *)
Definition echo_engine : Engine :=
  mkEngine (fun _ => None) (fun url => inr ("rows of " ++ url)) (fun _ _ _ => None).

Definition sample_globals : Globals := mkGlobals "minio-user" "minio-password".

Definition scenario_later_end : DateTime := mkDateTime 2025 10 22 0 0 0 0 10800.




(** Connection numbers are handed out in order: none at or above
    [next_connection] is open. *)
Definition fresh_ids (w : World) : Prop :=
  forall c, (next_connection w <= c)%nat -> connections w !! c = None.

(** An engine that cannot install extensions (no network), and one whose
    object store refuses every write. *)
Definition offline_engine : Engine :=
  mkEngine (fun ext => Some (Exn "IOException" ("Failed to download extension " ++ ext)))
           (fun url => inr ("rows of " ++ url))
           (fun _ _ _ => None).

Definition full_store_engine : Engine :=
  mkEngine (fun _ => None)
           (fun url => inr ("rows of " ++ url))
           (fun _ target _ => Some (Exn "IOException" ("Unable to write " ++ target))).

(** The scenario interval as the scheduler of a zone with daylight
    saving would hand it over on the day the clocks go back: Europe/Berlin,
    26 October 2025, 00:30 at +02:00 and 23:30 at +01:00. *)
Definition berlin_start : DateTime := mkDateTime 2025 10 26 0 30 0 0 7200.
Definition berlin_end : DateTime := mkDateTime 2025 10 26 23 30 0 0 3600.

(** Credentials with an apostrophe in the access key. *)
Definition quoted_globals : Globals := mkGlobals "min'io-user" "minio-password".

(** * Properties *)

Example format_scenario :
  format scenario_start "YYYY-MM-DD" = "2025-10-20".
Proof. reflexivity. Qed.

Example query_params_scenario :
  query_params (source_url "2025-10-20" "2025-10-21")
  = [("format", "csv"); ("starttime", "2025-10-20"); ("endtime", "2025-10-21")].
Proof. reflexivity. Qed.

Example s3_location_scenario :
  s3_location (destination "2025-10-20")
  = Some ("prod", "raw/earthquake/2025-10-20/2025-10-20_00-00-00.gz.parquet").
Proof. reflexivity. Qed.

(** ** The calendar *)

Section Calendar.

Lemma days_before_year_succ y :
  days_before_year (y + 1)
  = days_before_year y + 365 + (if is_leap y then 1 else 0).
Proof.
  unfold days_before_year, is_leap. cbv zeta.
  replace (y + 1 - 1) with y by lia.
  destruct (Z.eqb_spec (y mod 4) 0), (Z.eqb_spec (y mod 100) 0),
    (Z.eqb_spec (y mod 400) 0); cbn [negb orb andb];
    Z.div_mod_to_equations; lia.
Qed.

Lemma days_before_year_mono y1 y2 :
  y1 <= y2 -> days_before_year y1 <= days_before_year y2.
Proof.
  unfold days_before_year. cbv zeta. intros. Z.div_mod_to_equations. lia.
Qed.

Lemma month_cases m :
  1 <= m <= 12 ->
  m = 1 \/ m = 2 \/ m = 3 \/ m = 4 \/ m = 5 \/ m = 6 \/
  m = 7 \/ m = 8 \/ m = 9 \/ m = 10 \/ m = 11 \/ m = 12.
Proof. lia. Qed.

Ltac month_split H :=
  apply month_cases in H;
  repeat (destruct H as [H | H]); subst.

(** A date lies within its year. *)
Lemma ymd2ord_in_year y m d :
  1 <= m <= 12 -> 1 <= d <= days_in_month y m ->
  days_before_year y < ymd2ord y m d <= days_before_year (y + 1).
Proof.
  intros Hm Hd. rewrite days_before_year_succ.
  unfold ymd2ord, days_before_month. unfold days_in_month in Hd.
  month_split Hm; cbn in Hd |- *; destruct (is_leap y); cbn in Hd |- *; lia.
Qed.

(** Within a year, a later month starts after the earlier month ends. *)
Lemma ymd2ord_month_lt y m1 d1 m2 d2 :
  1 <= m1 <= 12 -> 1 <= m2 <= 12 ->
  1 <= d1 <= days_in_month y m1 -> 1 <= d2 <= days_in_month y m2 ->
  m1 < m2 -> ymd2ord y m1 d1 < ymd2ord y m2 d2.
Proof.
  intros Hm1 Hm2 Hd1 Hd2 Hlt.
  unfold ymd2ord, days_before_month. unfold days_in_month in Hd1, Hd2.
  month_split Hm1; month_split Hm2; try lia;
    cbn in Hd1, Hd2 |- *; destruct (is_leap y); cbn in Hd1, Hd2 |- *; lia.
Qed.

Lemma date_leb_false a b :
  date_leb (date_of a) (date_of b) = false ->
  year b < year a \/
  (year b = year a /\ month b < month a) \/
  (year b = year a /\ month b = month a /\ day b < day a).
Proof.
  unfold date_leb, date_of. intros H.
  destruct (Z.ltb_spec (year a) (year b)); [discriminate |].
  destruct (Z.eqb_spec (year a) (year b)); [| lia].
  destruct (Z.ltb_spec (month a) (month b)); [discriminate |].
  destruct (Z.eqb_spec (month a) (month b)); [| lia].
  destruct (Z.leb_spec (day a) (day b)); [discriminate | lia].
Qed.

(** The ordinal is strictly increasing in the calendar date. *)
Lemma ymd2ord_lt a b :
  wf a -> wf b ->
  date_leb (date_of a) (date_of b) = false ->
  ymd2ord (year b) (month b) (day b) < ymd2ord (year a) (month a) (day a).
Proof.
  intros (Hya & Hma & Hda & _) (Hyb & Hmb & Hdb & _) H.
  apply date_leb_false in H.
  destruct H as [Hy | [[Hy Hm] | (Hy & Hm & Hd)]].
  - pose proof (ymd2ord_in_year _ _ _ Hmb Hdb) as [_ Hb].
    pose proof (ymd2ord_in_year _ _ _ Hma Hda) as [Ha _].
    pose proof (days_before_year_mono (year b + 1) (year a)). lia.
  - rewrite Hy in *. now apply ymd2ord_month_lt.
  - rewrite Hy, Hm. unfold ymd2ord. lia.
Qed.

(** Two datetimes in the same zone, the first strictly earlier: the first
    calendar date is not after the second. *)
Lemma ltb_same_zone_date_leb a b :
  wf a -> wf b -> utcoffset a = utcoffset b ->
  ltb a b = true -> date_leb (date_of a) (date_of b) = true.
Proof.
  intros Ha Hb Hz Hlt.
  destruct (date_leb (date_of a) (date_of b)) eqn:Hd; [reflexivity |].
  pose proof (ymd2ord_lt a b Ha Hb Hd) as Hord.
  unfold ltb in Hlt. apply Z.ltb_lt in Hlt.
  unfold instant, local_seconds in Hlt.
  destruct Ha as (_ & _ & _ & ? & ? & ? & ? & _).
  destruct Hb as (_ & _ & _ & ? & ? & ? & ? & _).
  lia.
Qed.

Lemma wfb_wf dt : wfb dt = true -> wf dt.
Proof.
  unfold wfb, wf. rewrite !andb_true_iff.
  rewrite !Z.leb_le, !Z.ltb_lt. tauto.
Qed.

End Calendar.

(** ** The shape of formatted dates *)

Section Formatting.

Lemma forallb_range (f : Z -> bool) (lo len : Z) :
  forallb f (map (fun i => lo + Z.of_nat i) (seq 0 (Z.to_nat len))) = true ->
  forall z, lo <= z < lo + len -> f z = true.
Proof.
  intros H z Hz. rewrite forallb_forall in H. apply H.
  apply in_map_iff. exists (Z.to_nat (z - lo)). split; [lia |].
  apply in_seq. lia.
Qed.

Lemma fmt_d_year y : 1000 <= y <= 9999 -> digits4 (fmt_d y) y = true.
Proof.
  intros Hy.
  apply (forallb_range (fun z => digits4 (fmt_d z) z) 1000 9000);
    [vm_compute; reflexivity | lia].
Qed.

Lemma fmt_02d_small v : 0 <= v <= 99 -> digits2 (fmt_02d v) v = true.
Proof.
  intros Hv.
  apply (forallb_range (fun z => digits2 (fmt_02d z) z) 0 100);
    [vm_compute; reflexivity | lia].
Qed.

Lemma format_YYYY_MM_DD dt :
  format dt "YYYY-MM-DD"
  = fmt_d (year dt) ++ "-" ++ fmt_02d (month dt) ++ "-" ++ fmt_02d (day dt) ++ "".
Proof. reflexivity. Qed.

Lemma days_in_month_le y m : days_in_month y m <= 31.
Proof.
  unfold days_in_month, DAYS_IN_MONTH.
  destruct ((m =? 2) && is_leap y); [lia |].
  destruct m as [| p | p]; try lia.
  do 4 (try destruct p as [p | p |]); lia.
Qed.

(** A well-formed datetime of a four-digit year formats to a [YYYY-MM-DD]
    string that reads back as its own calendar date. *)
Lemma format_date_shape dt :
  wf dt -> 1000 <= year dt ->
  is_ymd (format dt "YYYY-MM-DD") = true /\
  parse_ymd (format dt "YYYY-MM-DD") = Some (date_of dt).
Proof.
  intros (Hy & Hm & Hd & _) Hy'.
  pose proof (days_in_month_le (year dt) (month dt)) as Hdim.
  assert (H4 : digits4 (fmt_d (year dt)) (year dt) = true)
    by (apply fmt_d_year; lia).
  assert (Hmm : digits2 (fmt_02d (month dt)) (month dt) = true)
    by (apply fmt_02d_small; lia).
  assert (Hdd : digits2 (fmt_02d (day dt)) (day dt) = true)
    by (apply fmt_02d_small; lia).
  rewrite format_YYYY_MM_DD. unfold date_of.
  destruct (fmt_d (year dt)) as [| y1 [| y2 [| y3 [| y4 [| ? ?]]]]];
    try discriminate H4.
  destruct (fmt_02d (month dt)) as [| m1 [| m2 [| ? ?]]]; try discriminate Hmm.
  destruct (fmt_02d (day dt)) as [| d1 [| d2 [| ? ?]]]; try discriminate Hdd.
  cbn [digits4 digits2] in H4, Hmm, Hdd.
  repeat rewrite andb_true_iff in H4.
  repeat rewrite andb_true_iff in Hmm.
  repeat rewrite andb_true_iff in Hdd.
  destruct H4 as ((((Ha & Hb) & Hc) & He) & Hv4).
  destruct Hmm as ((Hm1 & Hm2) & Hvm).
  destruct Hdd as ((Hd1 & Hd2) & Hvd).
  apply Z.eqb_eq in Hv4, Hvm, Hvd.
  cbv [String.append].
  match goal with |- is_ymd ?s = true /\ _ => assert (Hs : is_ymd s = true) end.
  { unfold is_ymd. now rewrite Ha, Hb, Hc, He, Hm1, Hm2, Hd1, Hd2. }
  split; [exact Hs |].
  unfold parse_ymd. rewrite Hs. now rewrite Hv4, Hvm, Hvd.
Qed.

End Formatting.

(** ** Strings inside strings *)

Lemma append_cons c (s t : string) : String c s ++ t = String c (s ++ t).
Proof. reflexivity. Qed.

Lemma prefix_append (x q : string) : String.prefix x (x ++ q) = true.
Proof.
  induction x as [| c x IH]; [now destruct q |].
  rewrite append_cons. cbn [String.prefix].
  destruct (ascii_dec c c); [exact IH | congruence].
Qed.

Lemma contains_append (x p q : string) : contains x (p ++ x ++ q) = true.
Proof.
  induction p as [| c p IH].
  - change ("" ++ x ++ q) with (x ++ q).
    destruct (x ++ q) eqn:Hxq; cbn [contains];
      rewrite <- Hxq, prefix_append; reflexivity.
  - rewrite append_cons. cbn [contains]. rewrite IH. apply orb_true_r.
Qed.

Lemma append_assoc (a b c : string) : (a ++ b) ++ c = a ++ b ++ c.
Proof.
  induction a as [| x a IH]; [reflexivity |].
  rewrite !append_cons. now rewrite IH.
Qed.

Lemma append_empty_r (a : string) : a ++ "" = a.
Proof.
  induction a as [| x a IH]; [reflexivity |].
  rewrite append_cons. now rewrite IH.
Qed.

Lemma append_inv_head (p a b : string) : p ++ a = p ++ b -> a = b.
Proof.
  induction p as [| c p IH]; [trivial |].
  rewrite !append_cons. intros [= H]. now apply IH.
Qed.

(** ** The query parameters of a window *)

Section QueryParameters.

Lemma break_at_free sep x : free_of sep x = true -> break_at sep x = None.
Proof.
  induction x as [| c x IH]; [reflexivity |].
  cbn. destruct (Ascii.eqb c sep); [discriminate |].
  intros H. now rewrite (IH H).
Qed.

Lemma break_at_first sep x y :
  free_of sep x = true -> break_at sep (x ++ String sep y) = Some (x, y).
Proof.
  induction x as [| c x IH].
  - intros _. change ("" ++ String sep y) with (String sep y).
    cbn. now rewrite Ascii.eqb_refl.
  - rewrite append_cons. cbn. destruct (Ascii.eqb c sep); [discriminate |].
    intros H. now rewrite (IH H).
Qed.

Lemma split_on_free sep x : free_of sep x = true -> split_on sep x = [x].
Proof.
  induction x as [| c x IH]; [reflexivity |].
  cbn. destruct (Ascii.eqb c sep); [discriminate |].
  intros H. now rewrite (IH H).
Qed.

Lemma split_on_first sep x y :
  free_of sep x = true ->
  split_on sep (x ++ String sep y) = x :: split_on sep y.
Proof.
  induction x as [| c x IH].
  - intros _. change ("" ++ String sep y) with (String sep y).
    cbn. now rewrite Ascii.eqb_refl.
  - rewrite append_cons. cbn. destruct (Ascii.eqb c sep); [discriminate |].
    intros H. now rewrite (IH H).
Qed.

Lemma free_of_append sep x y :
  free_of sep (x ++ y) = free_of sep x && free_of sep y.
Proof.
  induction x as [| c x IH]; [reflexivity |].
  rewrite append_cons. cbn. rewrite IH. apply andb_assoc.
Qed.

Lemma digit_not_separator c :
  is_digit c = true ->
  Ascii.eqb c "&" = false /\ Ascii.eqb c "=" = false /\ Ascii.eqb c "?" = false.
Proof.
  destruct c as [[] [] [] [] [] [] [] []]; cbn; intros H;
    try discriminate H; repeat split.
Qed.

(** A [YYYY-MM-DD] string holds none of the characters that delimit a
    query string. *)
Lemma is_ymd_free s :
  is_ymd s = true ->
  free_of "&" s = true /\ free_of "=" s = true /\ free_of "?" s = true.
Proof.
  unfold is_ymd.
  destruct s as [| y1 [| y2 [| y3 [| y4 [| h1 [| m1 [| m2 [| h2 [| d1
    [| d2 [| ? ?]]]]]]]]]]]; try discriminate.
  intros H. repeat rewrite andb_true_iff in H.
  destruct H as (((((((((H1 & H2) & H3) & H4) & Hh1) & H5) & H6) & Hh2) & H7) & H8).
  apply Ascii.eqb_eq in Hh1, Hh2. subst h1 h2.
  apply digit_not_separator in H1 as (? & ? & ?), H2 as (? & ? & ?),
    H3 as (? & ? & ?), H4 as (? & ? & ?), H5 as (? & ? & ?),
    H6 as (? & ? & ?), H7 as (? & ? & ?), H8 as (? & ? & ?).
  cbn [free_of].
  repeat match goal with H : Ascii.eqb _ _ = false |- _ => rewrite H; clear H end.
  repeat split.
Qed.

(** For a window of two [YYYY-MM-DD] strings the URL has exactly the
    three parameters [format], [starttime] and [endtime]. *)
Lemma query_params_window start_date end_date :
  is_ymd start_date = true -> is_ymd end_date = true ->
  query_params (source_url start_date end_date)
  = [("format", "csv"); ("starttime", start_date); ("endtime", end_date)].
Proof.
  intros Hs He.
  destruct (is_ymd_free _ Hs) as (Hsa & Hse & Hsq).
  destruct (is_ymd_free _ He) as (Hea & Hee & Heq).
  unfold query_params, source_url.
  change ("https://earthquake.usgs.gov/fdsnws/event/1/query?format=csv&starttime="
            ++ start_date ++ "&endtime=" ++ end_date)
    with ("https://earthquake.usgs.gov/fdsnws/event/1/query"
            ++ String "?" ("format=csv&starttime=" ++ start_date
                             ++ "&endtime=" ++ end_date)).
  rewrite break_at_first by reflexivity.
  change ("format=csv&starttime=" ++ start_date ++ "&endtime=" ++ end_date)
    with ("format=csv" ++ String "&" ("starttime=" ++ start_date
                                        ++ String "&" ("endtime=" ++ end_date))).
  rewrite split_on_first by reflexivity.
  rewrite <- append_assoc.
  rewrite split_on_first by (now rewrite free_of_append, Hsa).
  rewrite split_on_free by (now rewrite free_of_append, Hea).
  cbn [map].
  change "format=csv" with ("format" ++ String "=" "csv").
  rewrite break_at_first by reflexivity.
  change ("starttime=" ++ start_date) with ("starttime" ++ String "=" start_date).
  rewrite break_at_first by reflexivity.
  change ("endtime=" ++ end_date) with ("endtime" ++ String "=" end_date).
  rewrite break_at_first by reflexivity.
  reflexivity.
Qed.

End QueryParameters.

(** ** Reading the text of the task *)

Section Lexing.

Lemma lex_run_app st (a b : string) :
  lex_run st (a ++ b) =
  let '(s1, t1) := lex_run st a in
  let '(s2, t2) := lex_run s1 b in
  (s2, (t1 ++ t2)%list).
Proof.
  revert st. induction a as [| c a IH]; intros st.
  - change ("" ++ b) with b. cbn. now destruct (lex_run st b).
  - rewrite append_cons. cbn [lex_run].
    destruct (lex_step st c) as [st1 t1]. rewrite IH.
    destruct (lex_run st1 a) as [s1 t1']. destruct (lex_run s1 b) as [s2 t2].
    now rewrite app_assoc.
Qed.

Lemma lex_run_in_string acc (x : string) :
  quote_free x = true -> lex_run (InStr acc) x = (InStr (acc ++ x), []).
Proof.
  unfold quote_free. revert acc. induction x as [| c x IH]; intros acc H.
  - cbn. now rewrite append_empty_r.
  - cbn in H. apply andb_true_iff in H as [Hc Hx].
    cbn [lex_run lex_step]. apply negb_true_iff in Hc. rewrite Hc.
    rewrite (IH _ Hx). unfold snoc. now rewrite append_assoc.
Qed.

Ltac lex_constant :=
  rewrite lex_run_app;
  match goal with
  | |- context [lex_run ?st ?c] =>
      let r := eval vm_compute in (lex_run st c) in
      replace (lex_run st c) with r by (vm_compute; reflexivity)
  end;
  cbv beta iota.

Ltac lex_hole H :=
  rewrite lex_run_app;
  rewrite (lex_run_in_string _ _ H);
  cbv beta iota.

Lemma parse_sql_template (access_key secret_key url target : string) :
  quote_free access_key = true -> quote_free secret_key = true ->
  quote_free url = true -> quote_free target = true ->
  parse_sql (sql_template access_key secret_key url target)
  = inr [ SET "TIMEZONE" "UTC";
          INSTALL "httpfs";
          LOAD "httpfs";
          SET "s3_url_style" "path";
          SET "s3_endpoint" "minio:9000";
          SET "s3_access_key_id" access_key;
          SET "s3_secret_access_key" secret_key;
          SET "s3_use_ssl" "FALSE";
          COPY_read_csv_auto_TO url target ].
Proof.
  intros Hak Hsk Hurl Htarget.
  unfold parse_sql, lex, sql_template.
  lex_constant. lex_hole Hak.
  lex_constant. lex_hole Hsk.
  lex_constant. lex_hole Hurl.
  lex_constant. lex_hole Htarget.
  match goal with
  | |- context [lex_run ?st ?c] =>
      let r := eval vm_compute in (lex_run st c) in
      replace (lex_run st c) with r by (vm_compute; reflexivity)
  end.
  cbv beta iota.
  vm_compute. reflexivity.
Qed.

Lemma quote_free_append (x y : string) :
  quote_free (x ++ y) = quote_free x && quote_free y.
Proof. apply free_of_append. Qed.

(** With plain credentials and a plain window the engine reads the text
    of the task as the nine statements of [script]. *)
Lemma parse_sql_text G start_date end_date :
  quote_free (ACCESS_KEY G) = true -> quote_free (SECRET_KEY G) = true ->
  quote_free start_date = true -> quote_free end_date = true ->
  parse_sql (sql_text G start_date end_date) = inr (script G start_date end_date).
Proof.
  intros Hak Hsk Hs He. unfold sql_text, script.
  apply parse_sql_template; try assumption.
  - unfold source_url. now rewrite !quote_free_append, Hs, He.
  - unfold destination, destination_of. now rewrite !quote_free_append, Hs.
Qed.

(** Decimal numerals hold no apostrophe, and so does a formatted date. *)
Lemma string_of_uint_quote_free d :
  quote_free (NilEmpty.string_of_uint d) = true.
Proof. induction d; cbn; auto. Qed.

Lemma fmt_d_quote_free z : quote_free (fmt_d z) = true.
Proof.
  unfold fmt_d, NilZero.string_of_int, NilZero.string_of_uint.
  destruct (Z.to_int z) as [d | d]; destruct d; cbn;
    try apply string_of_uint_quote_free; reflexivity.
Qed.

Lemma fmt_02d_quote_free z : quote_free (fmt_02d z) = true.
Proof.
  unfold fmt_02d. destruct (_ <? _)%nat.
  - rewrite quote_free_append. now rewrite fmt_d_quote_free.
  - apply fmt_d_quote_free.
Qed.

Lemma format_quote_free dt : quote_free (format dt "YYYY-MM-DD") = true.
Proof.
  rewrite format_YYYY_MM_DD, !quote_free_append.
  now rewrite fmt_d_quote_free, !fmt_02d_quote_free.
Qed.

End Lexing.

(** ** The window of a context *)

(** A datetime entry under each of the two keys makes [get_dates] return. *)
Lemma get_dates_datetimes context a b :
  context !! "data_interval_start" = Some (VDateTime a) ->
  context !! "data_interval_end" = Some (VDateTime b) ->
  get_dates context = inr (format a "YYYY-MM-DD", format b "YYYY-MM-DD").
Proof.
  intros Ha Hb. unfold get_dates, context_lookup. now rewrite Ha, Hb.
Qed.

Lemma interval_context_start a b :
  interval_context a b !! "data_interval_start" = Some (VDateTime a).
Proof.
  unfold interval_context.
  rewrite lookup_insert_ne by discriminate. apply lookup_insert_eq.
Qed.

Lemma interval_context_end a b :
  interval_context a b !! "data_interval_end" = Some (VDateTime b).
Proof. unfold interval_context. apply lookup_insert_eq. Qed.

Lemma get_dates_interval_context a b :
  get_dates (interval_context a b)
  = inr (format a "YYYY-MM-DD", format b "YYYY-MM-DD").
Proof.
  apply get_dates_datetimes;
    [apply interval_context_start | apply interval_context_end].
Qed.

(** Plain credentials and two datetimes make a plain run. *)
Lemma plain_run_datetimes G (context : gmap string value) a b :
  quote_free (ACCESS_KEY G) = true -> quote_free (SECRET_KEY G) = true ->
  context !! "data_interval_start" = Some (VDateTime a) ->
  context !! "data_interval_end" = Some (VDateTime b) ->
  plain_run G context.
Proof.
  intros Hak Hsk Ha Hb. repeat split; try assumption;
    rewrite (get_dates_datetimes context a b Ha Hb) in H;
    injection H as <- <-; apply format_quote_free.
Qed.

Lemma plain_run_interval_context G a b :
  quote_free (ACCESS_KEY G) = true -> quote_free (SECRET_KEY G) = true ->
  plain_run G (interval_context a b).
Proof.
  intros Hak Hsk.
  apply (plain_run_datetimes G _ a b Hak Hsk);
    [apply interval_context_start | apply interval_context_end].
Qed.

Lemma plain_run_parse G (context : gmap string value) start_date end_date :
  plain_run G context ->
  get_dates context = inr (start_date, end_date) ->
  parse_sql (sql_text G start_date end_date) = inr (script G start_date end_date).
Proof.
  intros (Hak & Hsk & Hw) Hd. destruct (Hw _ _ Hd). now apply parse_sql_text.
Qed.

(** ** Running a script on an open connection *)

Section Script.

Context (E : Engine).

Lemma world_insert_id (w : World) c k :
  connections w !! c = Some k ->
  mkWorld (variables w) (variable_reads w) (objects w) (fetched w)
          (<[c := k]> (connections w)) (next_connection w) (log w) = w.
Proof. intros H. rewrite (insert_id _ _ _ H). now destruct w. Qed.

(** [exec_script] on an open connection is [run_script] on that
    connection. *)
Lemma exec_script_run_script c script : forall w k,
  connections w !! c = Some k ->
  exec_script E c script w =
  let '(r, k', objs, urls) := run_script E k (objects w) (fetched w) script in
  (r, mkWorld (variables w) (variable_reads w) objs urls
              (<[c := k']> (connections w)) (next_connection w) (log w)).
Proof.
  induction script as [| st rest IH]; intros w k Hk.
  - cbn. unfold mret, M_ret. now rewrite world_insert_id.
  - cbn [exec_script]. unfold mbind, M_bind, exec_statement. rewrite Hk.
    destruct st as [name val | ext | ext | url target]; cbn [run_script].
    + erewrite IH by (unfold set_connection; cbn; apply lookup_insert_eq).
      cbn. destruct (run_script E _ _ _ rest) as [[[r k'] objs] urls].
      now rewrite insert_insert_eq.
    + destruct (install_extension E ext) as [e |].
      * now rewrite world_insert_id.
      * now apply IH.
    + erewrite IH by (unfold set_connection; cbn; apply lookup_insert_eq).
      cbn. destruct (run_script E _ _ _ rest) as [[[r k'] objs] urls].
      now rewrite insert_insert_eq.
    + cbv zeta. destruct (read_csv_auto E url) as [e | rows].
      * unfold add_fetched. now rewrite (insert_id _ _ _ Hk).
      * destruct (put_object E (settings k) target rows) as [e |].
        -- unfold add_fetched. now rewrite (insert_id _ _ _ Hk).
        -- erewrite IH by (unfold set_object, add_fetched; cbn; exact Hk).
           reflexivity.
Qed.

End Script.

(** ** One run of the task *)

Section Task.

Context (E : Engine) (G : Globals).

Lemma run_script_script objs urls start_date end_date :
  run_script E (mkConnection ∅ ∅) objs urls (script G start_date end_date) =
  match install_extension E "httpfs" with
  | Some e => (inl e, mkConnection (<["TIMEZONE" := "UTC"]> ∅) ∅, objs, urls)
  | None =>
      let urls' := (urls ++ [source_url start_date end_date])%list in
      match read_csv_auto E (source_url start_date end_date) with
      | inl e => (inl e, configured G, objs, urls')
      | inr rows =>
          match put_object E (settings (configured G)) (destination start_date) rows with
          | Some e => (inl e, configured G, objs, urls')
          | None => (inr tt, configured G, <[destination start_date := rows]> objs,
                     urls')
          end
      end
  end.
Proof.
  unfold script. cbn [run_script settings extensions].
  destruct (install_extension E "httpfs"); [reflexivity |].
  destruct (read_csv_auto E _); [reflexivity |].
  fold (configured G). cbn [settings].
  destruct (put_object E _ _ _); reflexivity.
Qed.

(** The whole task in one equation: the window, the start line, the
    connection, the reading of the text, the statements, and on success
    only the close and the success line. *)
Lemma task_run context w :
  get_and_transfer_api_data_to_s3 E G context w =
  match get_dates context with
  | inl e => (inl e, w)
  | inr (start_date, end_date) =>
      let c := next_connection w in
      let line := start_line start_date end_date in
      match parse_sql (sql_text G start_date end_date) with
      | inl e =>
          (inl e, mkWorld (variables w) (variable_reads w) (objects w) (fetched w)
                          (<[c := mkConnection ∅ ∅]> (connections w)) (S c)
                          (log w ++ [line]))
      | inr statements =>
          match run_script E (mkConnection ∅ ∅) (objects w) (fetched w)
                           statements with
          | (inl e, k, objs, urls) =>
              (inl e, mkWorld (variables w) (variable_reads w) objs urls
                              (<[c := k]> (connections w)) (S c) (log w ++ [line]))
          | (inr _, k, objs, urls) =>
              (inr tt, mkWorld (variables w) (variable_reads w) objs urls
                               (delete c (connections w)) (S c)
                               ((log w ++ [line]) ++ [success_line start_date]))
          end
      end
  end.
Proof.
  unfold get_and_transfer_api_data_to_s3.
  unfold mbind at 1. unfold M_bind at 1. unfold lift.
  destruct (get_dates context) as [e | [start_date end_date]]; [reflexivity |].
  unfold mbind at 1. unfold M_bind at 1. unfold logging_info at 1.
  unfold mbind at 1. unfold M_bind at 1. unfold duckdb_connect.
  cbn [variables variable_reads objects fetched connections next_connection log].
  unfold mbind at 1. unfold M_bind at 1. unfold con_sql.
  destruct (parse_sql _) as [e | statements]; [reflexivity |].
  erewrite exec_script_run_script by (cbn; apply lookup_insert_eq).
  cbn [variables variable_reads objects fetched connections next_connection log].
  destruct (run_script E _ _ _ _) as [[[[e | []] k] objs] urls].
  - now rewrite insert_insert_eq.
  - unfold mbind, M_bind, con_close, logging_info.
    cbn [variables variable_reads objects fetched connections next_connection log].
    now rewrite insert_insert_eq, delete_insert_eq.
Qed.

(** The same for a plain run, whose text is read as [script]. *)
Lemma task_run_plain context w start_date end_date :
  plain_run G context ->
  get_dates context = inr (start_date, end_date) ->
  get_and_transfer_api_data_to_s3 E G context w =
  let c := next_connection w in
  let line := start_line start_date end_date in
  let url := source_url start_date end_date in
  let urls := (fetched w ++ [url])%list in
  match install_extension E "httpfs" with
  | Some e =>
      (inl e, mkWorld (variables w) (variable_reads w) (objects w) (fetched w)
                      (<[c := mkConnection (<["TIMEZONE" := "UTC"]> ∅) ∅]>
                         (connections w))
                      (S c) (log w ++ [line]))
  | None =>
      match read_csv_auto E url with
      | inl e =>
          (inl e, mkWorld (variables w) (variable_reads w) (objects w) urls
                          (<[c := configured G]> (connections w)) (S c)
                          (log w ++ [line]))
      | inr rows =>
          match put_object E (settings (configured G)) (destination start_date)
                           rows with
          | Some e =>
              (inl e, mkWorld (variables w) (variable_reads w) (objects w) urls
                              (<[c := configured G]> (connections w)) (S c)
                              (log w ++ [line]))
          | None =>
              (inr tt, mkWorld (variables w) (variable_reads w)
                               (<[destination start_date := rows]> (objects w))
                               urls (delete c (connections w)) (S c)
                               ((log w ++ [line]) ++ [success_line start_date]))
          end
      end
  end.
Proof.
  intros Hp Hd.
  rewrite task_run, Hd, (plain_run_parse _ _ _ _ Hp Hd), run_script_script.
  cbv zeta. destruct (install_extension E "httpfs"); [reflexivity |].
  destruct (read_csv_auto E _); [reflexivity |].
  destruct (put_object E _ _ _); reflexivity.
Qed.

End Task.

(** What a run that returned, and a run that raised after the window was
    computed, leave behind. *)
Lemma task_returned E G (context : gmap string value) w w' :
  plain_run G context ->
  get_and_transfer_api_data_to_s3 E G context w = (inr tt, w') ->
  exists start_date end_date rows,
    get_dates context = inr (start_date, end_date) /\
    install_extension E "httpfs" = None /\
    read_csv_auto E (source_url start_date end_date) = inr rows /\
    put_object E (settings (configured G)) (destination start_date) rows = None /\
    w' = mkWorld (variables w) (variable_reads w)
                 (<[destination start_date := rows]> (objects w))
                 (fetched w ++ [source_url start_date end_date])
                 (delete (next_connection w) (connections w))
                 (S (next_connection w))
                 ((log w ++ [start_line start_date end_date])
                    ++ [success_line start_date]).
Proof.
  intros Hp.
  destruct (get_dates context) as [e | [start_date end_date]] eqn:Hd.
  { rewrite task_run, Hd. discriminate. }
  rewrite (task_run_plain E G context w _ _ Hp Hd). cbv zeta.
  destruct (install_extension E "httpfs") eqn:Hi; [discriminate |].
  destruct (read_csv_auto E _) as [e | rows] eqn:Hr; [discriminate |].
  destruct (put_object E _ _ _) eqn:Hp'; [discriminate |].
  intros [= <-]. exists start_date, end_date, rows. auto.
Qed.

Lemma task_raised E G (context : gmap string value) w w' start_date end_date err :
  plain_run G context ->
  get_dates context = inr (start_date, end_date) ->
  get_and_transfer_api_data_to_s3 E G context w = (inl err, w') ->
  (install_extension E "httpfs" = Some err \/
   (install_extension E "httpfs" = None /\
    read_csv_auto E (source_url start_date end_date) = inl err) \/
   (install_extension E "httpfs" = None /\
    exists rows,
      read_csv_auto E (source_url start_date end_date) = inr rows /\
      put_object E (settings (configured G)) (destination start_date) rows
      = Some err)) /\
  exists k urls,
    w' = mkWorld (variables w) (variable_reads w) (objects w) urls
                 (<[next_connection w := k]> (connections w))
                 (S (next_connection w))
                 (log w ++ [start_line start_date end_date]).
Proof.
  intros Hp Hd. rewrite (task_run_plain E G context w _ _ Hp Hd). cbv zeta.
  destruct (install_extension E "httpfs") eqn:Hi.
  { intros [= <- <-]. split; [now left | eauto]. }
  destruct (read_csv_auto E _) as [e | rows] eqn:Hr.
  { intros [= <- <-]. split; [right; left; auto | eauto]. }
  destruct (put_object E _ _ _) eqn:Hp'; [| discriminate].
  intros [= <- <-]. split; [right; right; eauto | eauto].
Qed.

(** A run whose engine installs, answers and stores. *)
Lemma task_success E G context w start_date end_date rows :
  plain_run G context ->
  get_dates context = inr (start_date, end_date) ->
  install_extension E "httpfs" = None ->
  read_csv_auto E (source_url start_date end_date) = inr rows ->
  put_object E (settings (configured G)) (destination start_date) rows = None ->
  get_and_transfer_api_data_to_s3 E G context w =
  (inr tt,
   mkWorld (variables w) (variable_reads w)
           (<[destination start_date := rows]> (objects w))
           (fetched w ++ [source_url start_date end_date])
           (delete (next_connection w) (connections w))
           (S (next_connection w))
           ((log w ++ [start_line start_date end_date])
              ++ [success_line start_date])).
Proof.
  intros Hpl Hd Hi Hr Hp.
  rewrite (task_run_plain E G context w _ _ Hpl Hd). cbv zeta.
  now rewrite Hi, Hr, Hp.
Qed.

(** A run whose source answers with a failure. *)
Lemma task_fetch_failure E G context w start_date end_date err :
  plain_run G context ->
  get_dates context = inr (start_date, end_date) ->
  install_extension E "httpfs" = None ->
  read_csv_auto E (source_url start_date end_date) = inl err ->
  get_and_transfer_api_data_to_s3 E G context w =
  (inl err,
   mkWorld (variables w) (variable_reads w) (objects w)
           (fetched w ++ [source_url start_date end_date])
           (<[next_connection w := configured G]> (connections w))
           (S (next_connection w))
           (log w ++ [start_line start_date end_date])).
Proof.
  intros Hpl Hd Hi Hr.
  rewrite (task_run_plain E G context w _ _ Hpl Hd). cbv zeta.
  now rewrite Hi, Hr.
Qed.

(** What every run keeps, whatever its text is read as: a run that
    returned has closed its connection and written its two lines, and no
    run touches the Variable store. *)
Lemma task_returned_any E G (context : gmap string value) w w' :
  get_and_transfer_api_data_to_s3 E G context w = (inr tt, w') ->
  exists start_date end_date,
    get_dates context = inr (start_date, end_date) /\
    connections w' = delete (next_connection w) (connections w) /\
    next_connection w' = S (next_connection w) /\
    log w' = ((log w ++ [start_line start_date end_date])
                ++ [success_line start_date])%list.
Proof.
  rewrite task_run.
  destruct (get_dates context) as [e | [start_date end_date]]; [discriminate |].
  cbv zeta. destruct (parse_sql _) as [e | statements]; [discriminate |].
  destruct (run_script E _ _ _ _) as [[[[e | []] k] objs] urls]; [discriminate |].
  intros [= <-]. exists start_date, end_date. auto.
Qed.


(** ** The window calculation *)

(** C1, as the code has it: [get_dates] does not validate the window.  For
    every pair of interval datetimes, whatever their order, and so also
    when the end is not after the start, it returns the two formatted
    dates in input order and raises nothing: no window is rejected.  It
    is a function of the context alone and touches nothing of the
    world. *)
Theorem get_dates_no_window_check (context : gmap string value) a b :
  context !! "data_interval_start" = Some (VDateTime a) ->
  context !! "data_interval_end" = Some (VDateTime b) ->
  get_dates context = inr (format a "YYYY-MM-DD", format b "YYYY-MM-DD") /\
  forall e, get_dates context <> inl e.
Proof.
  intros Ha Hb. rewrite (get_dates_datetimes context a b Ha Hb).
  split; [reflexivity | discriminate].
Qed.

Lemma get_dates_no_window_check_witness :
  leb scenario_start scenario_end = true /\
  get_dates (interval_context scenario_end scenario_start)
  = inr ("2025-10-21", "2025-10-20").
Proof.
  split; [reflexivity |].
  apply (get_dates_no_window_check
           (interval_context scenario_end scenario_start)
           scenario_end scenario_start);
    [apply interval_context_start | apply interval_context_end].
Defined.

(** C1, as stated, fails: with [data_interval_end] a day before
    [data_interval_start], and with the two equal, [get_dates] returns a
    window instead of raising. *)
Lemma get_dates_accepts_inverted_window :
  leb scenario_start scenario_end = true /\
  get_dates (interval_context scenario_end scenario_start)
  = inr ("2025-10-21", "2025-10-20") /\
  leb scenario_start scenario_start = true /\
  get_dates (interval_context scenario_start scenario_start)
  = inr ("2025-10-20", "2025-10-20") /\
  ~ (forall a b, leb b a = true ->
       exists e, get_dates (interval_context a b) = inl e /\
                 exn_class e = "InvalidWindowError").
Proof.
  split; [reflexivity |]. split; [apply get_dates_interval_context |].
  split; [reflexivity |]. split; [apply get_dates_interval_context |].
  intros H. destruct (H scenario_start scenario_start eq_refl) as (e & He & _).
  rewrite get_dates_interval_context in He. discriminate.
Qed.

(** C2: for an interval [a < b] as the scheduler delivers it (two
    well-formed datetimes with one UTC offset, in a four-digit year),
    [get_dates] returns two [YYYY-MM-DD] strings; they read back as the
    calendar dates of [a] and [b], and the first date is not after the
    second. *)
Theorem get_dates_valid_interval (context : gmap string value) a b :
  context !! "data_interval_start" = Some (VDateTime a) ->
  context !! "data_interval_end" = Some (VDateTime b) ->
  wf a -> wf b -> utcoffset a = utcoffset b -> 1000 <= year a ->
  ltb a b = true ->
  exists start_date end_date,
    get_dates context = inr (start_date, end_date) /\
    is_ymd start_date = true /\ is_ymd end_date = true /\
    parse_ymd start_date = Some (date_of a) /\
    parse_ymd end_date = Some (date_of b) /\
    date_leb (date_of a) (date_of b) = true.
Proof.
  intros Hca Hcb Ha Hb Hz Hy Hlt.
  pose proof (ltb_same_zone_date_leb a b Ha Hb Hz Hlt) as Hle.
  assert (Hyb : 1000 <= year b).
  { unfold date_leb, date_of in Hle.
    destruct (Z.ltb_spec (year a) (year b)); [lia |].
    destruct (Z.eqb_spec (year a) (year b)); [lia | discriminate]. }
  destruct (format_date_shape a Ha Hy) as [Hsa Hpa].
  destruct (format_date_shape b Hb Hyb) as [Hsb Hpb].
  exists (format a "YYYY-MM-DD"), (format b "YYYY-MM-DD").
  rewrite (get_dates_datetimes context a b Hca Hcb). auto 10.
Qed.

Lemma get_dates_valid_interval_witness :
  ltb scenario_start scenario_end = true /\
  exists start_date end_date,
    get_dates (interval_context scenario_start scenario_end)
    = inr (start_date, end_date) /\
    is_ymd start_date = true /\ is_ymd end_date = true /\
    parse_ymd start_date = Some (2025, 10, 20) /\
    parse_ymd end_date = Some (2025, 10, 21) /\
    date_leb (2025, 10, 20) (2025, 10, 21) = true.
Proof.
  split; [reflexivity |].
  apply (get_dates_valid_interval
           (interval_context scenario_start scenario_end)
           scenario_start scenario_end);
    [ apply interval_context_start | apply interval_context_end
    | apply wfb_wf; reflexivity | apply wfb_wf; reflexivity
    | reflexivity | cbn; lia | reflexivity ].
Defined.

(** Outside those intervals the order can fail: two datetimes with
    different UTC offsets, the first earlier in time but later on its
    local calendar. *)
Example mixed_zones_invert_dates :
  let a := mkDateTime 2025 10 21 0 30 0 0 10800 in
  let b := mkDateTime 2025 10 20 22 0 0 0 0 in
  ltb a b = true /\
  get_dates (interval_context a b) = inr ("2025-10-21", "2025-10-20").
Proof. split; [reflexivity | apply get_dates_interval_context]. Qed.

(** With two offsets the same can happen inside one zone: on the day
    the clocks go back in Europe/Berlin an interval of exactly 24 hours
    starts and ends on the same calendar day. *)
Example berlin_day_equal_dates :
  instant berlin_end = (instant berlin_start + 86400 * 1000000)%Z /\
  get_dates (interval_context berlin_start berlin_end)
  = inr ("2025-10-26", "2025-10-26").
Proof. split; [reflexivity | apply get_dates_interval_context]. Qed.

(** C8: [get_dates] reads the two interval entries of its context and
    nothing else: contexts that agree on them give the same window,
    whatever else they hold; no clock and no world is an input. *)
Theorem get_dates_deterministic (c1 c2 : gmap string value) :
  c1 !! "data_interval_start" = c2 !! "data_interval_start" ->
  c1 !! "data_interval_end" = c2 !! "data_interval_end" ->
  get_dates c1 = get_dates c2.
Proof.
  intros Hs He. unfold get_dates, context_lookup. now rewrite Hs, He.
Qed.

Lemma get_dates_deterministic_witness :
  get_dates (<["ts" := plain_str "2025-10-21T05:00:07+00:00"]>
               (interval_context scenario_start scenario_end))
  = get_dates (<["ts" := plain_str "2031-01-01T00:00:00+00:00"]>
                 (<["run_id" := plain_str "backfill__2025-10-20"]>
                    (interval_context scenario_start scenario_end))).
Proof.
  apply get_dates_deterministic; reflexivity.
Defined.

(** ** The query and its destination *)

(** C4: the scenario interval, midnight to midnight in Europe/Moscow,
    gives the window [("2025-10-20", "2025-10-21")]; with credentials
    that hold no apostrophe, the text of the task copies to the object
    [raw/earthquake/2025-10-20/2025-10-20_00-00-00.gz.parquet] of the
    bucket [prod], and a run against a healthy source stores its rows
    there. *)
Theorem scenario_window_and_destination (G : Globals) :
  quote_free (ACCESS_KEY G) = true ->
  quote_free (SECRET_KEY G) = true ->
  get_dates (interval_context scenario_start scenario_end)
  = inr ("2025-10-20", "2025-10-21") /\
  (exists statements,
     parse_sql (sql_text G "2025-10-20" "2025-10-21") = inr statements /\
     map snd (copies statements)
     = ["s3://prod/raw/earthquake/2025-10-20/2025-10-20_00-00-00.gz.parquet"]) /\
  s3_location (destination "2025-10-20")
  = Some ("prod", "raw/earthquake/2025-10-20/2025-10-20_00-00-00.gz.parquet") /\
  exists w',
    get_and_transfer_api_data_to_s3 healthy_engine G
      (interval_context scenario_start scenario_end) empty_world = (inr tt, w') /\
    objects w'
    = {[ "s3://prod/raw/earthquake/2025-10-20/2025-10-20_00-00-00.gz.parquet"
         := "time,latitude,longitude,mag" ]}.
Proof.
  intros Hak Hsk.
  split; [apply get_dates_interval_context |].
  split.
  { exists (script G "2025-10-20" "2025-10-21").
    split; [now apply parse_sql_text | reflexivity]. }
  split; [reflexivity |].
  eexists. split.
  - apply (task_success healthy_engine G _ empty_world "2025-10-20" "2025-10-21");
      [ now apply plain_run_interval_context | apply get_dates_interval_context
      | reflexivity.. ].
  - reflexivity.
Qed.

Lemma scenario_window_and_destination_witness :
  exists w',
    get_and_transfer_api_data_to_s3 healthy_engine sample_globals
      (interval_context scenario_start scenario_end) empty_world = (inr tt, w') /\
    objects w'
    = {[ "s3://prod/raw/earthquake/2025-10-20/2025-10-20_00-00-00.gz.parquet"
         := "time,latitude,longitude,mag" ]}.
Proof.
  apply (scenario_window_and_destination sample_globals); reflexivity.
Defined.

(** With an apostrophe in the access key the text cannot be read: the
    run raises a parser exception after the start line, and nothing is
    fetched or stored. *)
Example apostrophe_in_credential :
  exists e w',
    get_and_transfer_api_data_to_s3 healthy_engine quoted_globals
      (interval_context scenario_start scenario_end) empty_world = (inl e, w') /\
    exn_class e = "ParserException" /\
    fetched w' = [] /\ objects w' = ∅ /\
    log w' = [start_line "2025-10-20" "2025-10-21"].
Proof.
  eexists _, _. split; [vm_compute; reflexivity |].
  repeat split.
Qed.

(** The window is made of the local calendar fields: the start of the
    scenario interval, written in UTC, is the same point in time and
    formats to the day before. *)
Example scenario_start_in_utc :
  let a := mkDateTime 2025 10 19 21 0 0 0 0 in
  instant a = instant scenario_start /\
  format a "YYYY-MM-DD" = "2025-10-19".
Proof. split; reflexivity. Qed.

(** C5: a run of the task for an interval of two datetimes, with plain
    credentials and the extension installed, reads from the source
    exactly once, and the URL it reads is the one built from its window:
    it contains [format=csv], [starttime=] followed by the start date and
    [endtime=] followed by the end date, the two next to each other as in
    [starttime=2025-10-20&endtime=2025-10-21].  For well-formed datetimes
    of four-digit years these three are exactly the parameters of the
    URL. *)
Theorem task_fetches_window_url E G (context : gmap string value) w a b :
  context !! "data_interval_start" = Some (VDateTime a) ->
  context !! "data_interval_end" = Some (VDateTime b) ->
  quote_free (ACCESS_KEY G) = true ->
  quote_free (SECRET_KEY G) = true ->
  install_extension E "httpfs" = None ->
  exists start_date end_date url,
    get_dates context = inr (start_date, end_date) /\
    start_date = format a "YYYY-MM-DD" /\
    end_date = format b "YYYY-MM-DD" /\
    fetched (snd (get_and_transfer_api_data_to_s3 E G context w))
    = (fetched w ++ [url])%list /\
    url = source_url start_date end_date /\
    contains "format=csv" url = true /\
    contains ("starttime=" ++ start_date) url = true /\
    contains ("endtime=" ++ end_date) url = true /\
    contains ("starttime=" ++ start_date ++ "&endtime=" ++ end_date) url = true /\
    (wf a -> wf b -> (1000 <= year a)%Z -> (1000 <= year b)%Z ->
     query_params url
     = [("format", "csv"); ("starttime", start_date); ("endtime", end_date)]).
Proof.
  intros Ha Hb Hak Hsk Hi.
  pose proof (get_dates_datetimes context a b Ha Hb) as Hd.
  pose proof (plain_run_datetimes G context a b Hak Hsk Ha Hb) as Hp.
  exists (format a "YYYY-MM-DD"), (format b "YYYY-MM-DD"),
         (source_url (format a "YYYY-MM-DD") (format b "YYYY-MM-DD")).
  split; [exact Hd |]. split; [reflexivity |]. split; [reflexivity |].
  split.
  { rewrite (task_run_plain E G context w _ _ Hp Hd). cbv zeta. rewrite Hi.
    destruct (read_csv_auto E _); [reflexivity |].
    destruct (put_object E _ _ _); reflexivity. }
  split; [reflexivity |].
  set (s := format a "YYYY-MM-DD"). set (e := format b "YYYY-MM-DD").
  split.
  { apply (contains_append "format=csv"
             "https://earthquake.usgs.gov/fdsnws/event/1/query?"
             ("&starttime=" ++ s ++ "&endtime=" ++ e)). }
  split.
  { pose proof (contains_append ("starttime=" ++ s)
             "https://earthquake.usgs.gov/fdsnws/event/1/query?format=csv&"
             ("&endtime=" ++ e)) as H.
    rewrite append_assoc in H. exact H. }
  split.
  { pose proof (contains_append ("endtime=" ++ e)
             ("https://earthquake.usgs.gov/fdsnws/event/1/query?format=csv&starttime="
                ++ s ++ "&") "") as H.
    rewrite append_empty_r, !append_assoc in H. exact H. }
  split.
  { pose proof (contains_append ("starttime=" ++ s ++ "&endtime=" ++ e)
             "https://earthquake.usgs.gov/fdsnws/event/1/query?format=csv&" "") as H.
    rewrite !append_assoc, append_empty_r in H. exact H. }
  intros Hwa Hwb Hya Hyb. subst s e.
  apply query_params_window; now apply format_date_shape.
Qed.

Lemma task_fetches_window_url_witness :
  exists start_date end_date url,
    get_dates (interval_context scenario_start scenario_end)
    = inr (start_date, end_date) /\
    start_date = "2025-10-20" /\
    end_date = "2025-10-21" /\
    fetched (snd (get_and_transfer_api_data_to_s3 failing_engine sample_globals
                    (interval_context scenario_start scenario_end) empty_world))
    = (fetched empty_world ++ [url])%list /\
    url = source_url start_date end_date /\
    contains "format=csv" url = true /\
    contains ("starttime=" ++ start_date) url = true /\
    contains ("endtime=" ++ end_date) url = true /\
    contains ("starttime=" ++ start_date ++ "&endtime=" ++ end_date) url = true /\
    (wf scenario_start -> wf scenario_end ->
     (1000 <= year scenario_start)%Z -> (1000 <= year scenario_end)%Z ->
     query_params url
     = [("format", "csv"); ("starttime", start_date); ("endtime", end_date)]).
Proof.
  apply (task_fetches_window_url failing_engine sample_globals
           (interval_context scenario_start scenario_end) empty_world
           scenario_start scenario_end);
    [apply interval_context_start | apply interval_context_end | reflexivity..].
Defined.

(** ** Runs of the extraction task *)

(** Two plain runs in a row that share their start date: the second
    replaces the object of the first. *)
Lemma rerun_overwrites E1 E2 G1 G2 (c1 c2 : gmap string value)
    start_date e1 e2 w0 w1 w2 :
  plain_run G1 c1 -> plain_run G2 c2 ->
  get_dates c1 = inr (start_date, e1) ->
  get_dates c2 = inr (start_date, e2) ->
  get_and_transfer_api_data_to_s3 E1 G1 c1 w0 = (inr tt, w1) ->
  get_and_transfer_api_data_to_s3 E2 G2 c2 w1 = (inr tt, w2) ->
  exists rows1 rows2,
    read_csv_auto E1 (source_url start_date e1) = inr rows1 /\
    read_csv_auto E2 (source_url start_date e2) = inr rows2 /\
    objects w1 = <[destination start_date := rows1]> (objects w0) /\
    objects w2 = <[destination start_date := rows2]> (objects w0).
Proof.
  intros Hp1 Hp2 Hd1 Hd2 H1 H2.
  apply (task_returned _ _ _ _ _ Hp1) in H1
    as (s1 & e1' & rows1 & Hd1' & _ & Hr1 & _ & ->).
  apply (task_returned _ _ _ _ _ Hp2) in H2
    as (s2 & e2' & rows2 & Hd2' & _ & Hr2 & _ & ->).
  rewrite Hd1 in Hd1'. rewrite Hd2 in Hd2'.
  injection Hd1' as <- <-. injection Hd2' as <- <-.
  exists rows1, rows2. cbn [objects]. repeat split; try assumption.
  apply insert_insert_eq.
Qed.

(** C3: with credentials and window free of apostrophes, the target of
    the [COPY] is [destination_of] applied to the layer, the source and
    the start date, whatever the credentials and the rest of the run; two
    runs for the same window therefore write the same object, and after
    the second the store holds that one object with the rows of the
    second run: no object is added. *)
Theorem rerun_same_window_overwrites E1 E2 G1 G2 (c1 c2 : gmap string value)
    w0 w1 w2 :
  plain_run G1 c1 -> plain_run G2 c2 ->
  get_dates c1 = get_dates c2 ->
  get_and_transfer_api_data_to_s3 E1 G1 c1 w0 = (inr tt, w1) ->
  get_and_transfer_api_data_to_s3 E2 G2 c2 w1 = (inr tt, w2) ->
  exists start_date end_date rows1 rows2,
    get_dates c1 = inr (start_date, end_date) /\
    map snd (copies (script G1 start_date end_date))
    = [destination_of LAYER SOURCE start_date] /\
    map snd (copies (script G2 start_date end_date))
    = [destination_of LAYER SOURCE start_date] /\
    parse_sql (sql_text G1 start_date end_date)
    = inr (script G1 start_date end_date) /\
    parse_sql (sql_text G2 start_date end_date)
    = inr (script G2 start_date end_date) /\
    objects w1 = <[destination_of LAYER SOURCE start_date := rows1]> (objects w0) /\
    objects w2 = <[destination_of LAYER SOURCE start_date := rows2]> (objects w0) /\
    dom (objects w2) = dom (objects w1).
Proof.
  intros Hp1 Hp2 Heq H1 H2.
  destruct (task_returned_any _ _ _ _ _ H1) as (s & e & Hd1 & _).
  assert (Hd2 : get_dates c2 = inr (s, e)) by now rewrite <- Heq.
  destruct (rerun_overwrites _ _ _ _ _ _ _ _ _ _ _ _ Hp1 Hp2 Hd1 Hd2 H1 H2)
    as (rows1 & rows2 & _ & _ & Ho1 & Ho2).
  exists s, e, rows1, rows2. fold (destination s).
  split; [assumption |]. split; [reflexivity |]. split; [reflexivity |].
  split; [exact (plain_run_parse _ _ _ _ Hp1 Hd1) |].
  split; [exact (plain_run_parse _ _ _ _ Hp2 Hd2) |].
  split; [assumption |]. split; [assumption |].
  rewrite Ho1, Ho2, !dom_insert_L. reflexivity.
Qed.

Lemma rerun_same_window_overwrites_witness :
  let c := interval_context scenario_start scenario_end in
  let w1 := snd (get_and_transfer_api_data_to_s3 healthy_engine sample_globals c
                   empty_world) in
  let w2 := snd (get_and_transfer_api_data_to_s3 echo_engine sample_globals c w1) in
  exists start_date end_date rows1 rows2,
    get_dates c = inr (start_date, end_date) /\
    map snd (copies (script sample_globals start_date end_date))
    = [destination_of LAYER SOURCE start_date] /\
    map snd (copies (script sample_globals start_date end_date))
    = [destination_of LAYER SOURCE start_date] /\
    parse_sql (sql_text sample_globals start_date end_date)
    = inr (script sample_globals start_date end_date) /\
    parse_sql (sql_text sample_globals start_date end_date)
    = inr (script sample_globals start_date end_date) /\
    objects w1 = <[destination_of LAYER SOURCE start_date := rows1]> (objects empty_world) /\
    objects w2 = <[destination_of LAYER SOURCE start_date := rows2]> (objects empty_world) /\
    dom (objects w2) = dom (objects w1).
Proof.
  intros c w1 w2.
  apply (rerun_same_window_overwrites healthy_engine echo_engine
           sample_globals sample_globals c c empty_world w1 w2).
  - now apply plain_run_interval_context.
  - now apply plain_run_interval_context.
  - reflexivity.
  - vm_compute. reflexivity.
  - vm_compute. reflexivity.
Defined.

(** C10: the [COPY] target is built from the start date alone.  Two
    windows with the same start date and different end dates, in runs
    whose credentials and windows hold no apostrophe, query different
    URLs and write the same destination, so of two such runs in a row
    the second replaces what the first stored. *)
Theorem destination_ignores_end_date E1 E2 G1 G2 (c1 c2 : gmap string value)
    start_date e1 e2 w0 w1 w2 :
  plain_run G1 c1 -> plain_run G2 c2 ->
  get_dates c1 = inr (start_date, e1) ->
  get_dates c2 = inr (start_date, e2) ->
  e1 <> e2 ->
  get_and_transfer_api_data_to_s3 E1 G1 c1 w0 = (inr tt, w1) ->
  get_and_transfer_api_data_to_s3 E2 G2 c2 w1 = (inr tt, w2) ->
  map snd (copies (script G1 start_date e1))
  = map snd (copies (script G2 start_date e2)) /\
  map fst (copies (script G1 start_date e1))
  <> map fst (copies (script G2 start_date e2)) /\
  parse_sql (sql_text G1 start_date e1) = inr (script G1 start_date e1) /\
  parse_sql (sql_text G2 start_date e2) = inr (script G2 start_date e2) /\
  exists rows1 rows2,
    read_csv_auto E1 (source_url start_date e1) = inr rows1 /\
    read_csv_auto E2 (source_url start_date e2) = inr rows2 /\
    fetched w2 = (fetched w0 ++ [source_url start_date e1;
                                 source_url start_date e2])%list /\
    objects w1 !! destination start_date = Some rows1 /\
    objects w2 !! destination start_date = Some rows2 /\
    objects w2 = <[destination start_date := rows2]> (objects w0).
Proof.
  intros Hp1 Hp2 Hd1 Hd2 Hne H1 H2.
  split; [reflexivity |]. split.
  { cbn. unfold source_url. intros [= H].
    apply append_inv_head in H. apply append_inv_head in H.
    change ("&endtime=" ++ e1) with (String "&" ("endtime=" ++ e1)) in H.
    apply (append_inv_head "&endtime=") in H. contradiction. }
  split; [exact (plain_run_parse _ _ _ _ Hp1 Hd1) |].
  split; [exact (plain_run_parse _ _ _ _ Hp2 Hd2) |].
  destruct (rerun_overwrites _ _ _ _ _ _ _ _ _ _ _ _ Hp1 Hp2 Hd1 Hd2 H1 H2)
    as (rows1 & rows2 & Hr1 & Hr2 & Ho1 & Ho2).
  exists rows1, rows2. repeat split; try assumption.
  - apply (task_returned _ _ _ _ _ Hp1) in H1
      as (s1 & e1' & ? & Hd1' & _ & _ & _ & ->).
    apply (task_returned _ _ _ _ _ Hp2) in H2
      as (s2 & e2' & ? & Hd2' & _ & _ & _ & ->).
    rewrite Hd1 in Hd1'. rewrite Hd2 in Hd2'.
    injection Hd1' as <- <-. injection Hd2' as <- <-.
    cbn [fetched]. now rewrite <- app_assoc.
  - rewrite Ho1. apply lookup_insert_eq.
  - rewrite Ho2. apply lookup_insert_eq.
Qed.

Lemma destination_ignores_end_date_witness :
  let c1 := interval_context scenario_start scenario_end in
  let c2 := interval_context scenario_start scenario_later_end in
  let w1 := snd (get_and_transfer_api_data_to_s3 echo_engine sample_globals c1
                   empty_world) in
  let w2 := snd (get_and_transfer_api_data_to_s3 echo_engine sample_globals c2 w1) in
  "2025-10-21" <> "2025-10-22" /\
  objects w1 !! destination "2025-10-20"
  = Some ("rows of " ++ source_url "2025-10-20" "2025-10-21") /\
  objects w2 !! destination "2025-10-20"
  = Some ("rows of " ++ source_url "2025-10-20" "2025-10-22") /\
  objects w2
  = <[destination "2025-10-20" := "rows of " ++ source_url "2025-10-20" "2025-10-22"]>
      (objects empty_world).
Proof.
  intros c1 c2 w1 w2.
  assert (Hne : "2025-10-21" <> "2025-10-22") by discriminate.
  split; [exact Hne |].
  destruct (destination_ignores_end_date echo_engine echo_engine
              sample_globals sample_globals c1 c2
              "2025-10-20" "2025-10-21" "2025-10-22" empty_world w1 w2)
    as (_ & _ & _ & _ & rows1 & rows2 & Hr1 & Hr2 & _ & Ho1 & Ho2 & Ho);
    [ now apply plain_run_interval_context | now apply plain_run_interval_context
    | apply get_dates_interval_context | apply get_dates_interval_context
    | exact Hne | vm_compute; reflexivity | vm_compute; reflexivity | ].
  injection Hr1 as <-. injection Hr2 as <-. auto.
Defined.

(** ** Failures of the extraction statement *)

(** C6, at the failing run: the source answers the scenario window with
    an HTTP error; the task raises, and the connection it opened (number
    0 of the empty world) is still open when it has returned.  A run
    that succeeds closes its connection. *)
Theorem failed_extraction_keeps_connection_open :
  let context := interval_context scenario_start scenario_end in
  (exists err w',
     get_and_transfer_api_data_to_s3 failing_engine sample_globals context
       empty_world = (inl err, w') /\
     exn_class err = "HTTPException" /\
     next_connection empty_world = 0%nat /\
     connections w' !! 0%nat = Some (configured sample_globals)) /\
  (exists w',
     get_and_transfer_api_data_to_s3 healthy_engine sample_globals context
       empty_world = (inr tt, w') /\
     connections w' !! 0%nat = None).
Proof.
  intros context.
  assert (Hp : plain_run sample_globals context)
    by now apply plain_run_interval_context.
  split.
  - eexists _, _. split.
    + apply (task_fetch_failure failing_engine sample_globals context empty_world
               "2025-10-20" "2025-10-21");
        [exact Hp | apply get_dates_interval_context | reflexivity | reflexivity].
    + split; [reflexivity |]. split; [reflexivity |].
      cbn. apply lookup_insert_eq.
  - eexists. split.
    + apply (task_success healthy_engine sample_globals context empty_world
               "2025-10-20" "2025-10-21");
        [exact Hp | apply get_dates_interval_context | reflexivity..].
    + cbn. apply lookup_delete_eq.
Qed.

(** C7: whatever exception [con.sql] raises on the task's connection,
    for the text of the task, is the exception the task raises, and the
    world is left exactly as the failing call left it: no handler runs
    and the log ends with the start line.  When the credentials and the
    window hold no apostrophe, nothing has been stored. *)
Theorem extraction_failure_propagates E G (context : gmap string value)
    start_date end_date w c w1 err w2 :
  get_dates context = inr (start_date, end_date) ->
  (logging_info (start_line start_date end_date) ;; duckdb_connect) w
  = (inr c, w1) ->
  con_sql E c (sql_text G start_date end_date) w1 = (inl err, w2) ->
  get_and_transfer_api_data_to_s3 E G context w = (inl err, w2) /\
  log w2 = (log w ++ [start_line start_date end_date])%list /\
  (plain_run G context -> objects w2 = objects w).
Proof.
  intros Hd Hc Hsql.
  assert (Hrun : get_and_transfer_api_data_to_s3 E G context w = (inl err, w2)).
  { unfold get_and_transfer_api_data_to_s3.
    unfold mbind at 1. unfold M_bind at 1. unfold lift. rewrite Hd.
    revert Hc. unfold mbind, M_bind, logging_info, duckdb_connect.
    intros [= <- <-].
    cbn [variables variable_reads objects fetched connections next_connection log]
      in Hsql |- *.
    now rewrite Hsql. }
  split; [exact Hrun |]. split.
  - revert Hrun. rewrite task_run, Hd. cbv zeta.
    destruct (parse_sql _) as [e | statements]; [now intros [= <- <-] |].
    destruct (run_script E _ _ _ _) as [[[[e | []] k] objs] urls];
      [now intros [= <- <-] | discriminate].
  - intros Hp.
    now destruct (task_raised _ _ _ _ _ _ _ _ Hp Hd Hrun) as [_ (k & urls & ->)].
Qed.

Lemma extraction_failure_propagates_witness :
  let context := interval_context scenario_start scenario_end in
  let w1 := snd ((logging_info (start_line "2025-10-20" "2025-10-21") ;;
                  duckdb_connect) empty_world) in
  let w2 := snd (con_sql failing_engine 0%nat
                   (sql_text sample_globals "2025-10-20" "2025-10-21") w1) in
  get_and_transfer_api_data_to_s3 failing_engine sample_globals context empty_world
  = (inl (Exn "HTTPException"
              ("HTTP Error: 503 for " ++ source_url "2025-10-20" "2025-10-21")),
     w2) /\
  log w2 = (log empty_world ++ [start_line "2025-10-20" "2025-10-21"])%list /\
  objects w2 = objects empty_world.
Proof.
  intros context w1 w2.
  destruct (extraction_failure_propagates failing_engine sample_globals context
              "2025-10-20" "2025-10-21" empty_world 0%nat w1
              (Exn "HTTPException"
                   ("HTTP Error: 503 for " ++ source_url "2025-10-20" "2025-10-21"))
              w2) as (Hrun & Hlog & Hobj);
    [ apply get_dates_interval_context
    | vm_compute; reflexivity
    | vm_compute; reflexivity | ].
  split; [exact Hrun |]. split; [exact Hlog |].
  apply Hobj. now apply plain_run_interval_context.
Defined.

(** An upstream HTTP error, in general: the task raises it, stores
    nothing and writes no success line. *)
Lemma http_error_fails_task E G (context : gmap string value) w
    start_date end_date err :
  plain_run G context ->
  get_dates context = inr (start_date, end_date) ->
  install_extension E "httpfs" = None ->
  read_csv_auto E (source_url start_date end_date) = inl err ->
  exists w',
    get_and_transfer_api_data_to_s3 E G context w = (inl err, w') /\
    objects w' = objects w /\
    ~ In (success_line start_date) (skipn (length (log w)) (log w')).
Proof.
  intros Hp Hd Hi Hr. eexists.
  split; [exact (task_fetch_failure E G context w _ _ err Hp Hd Hi Hr) |].
  split; [reflexivity |]. cbn [log].
  rewrite skipn_app, skipn_all, Nat.sub_diag. cbn.
  intros [H | []]. discriminate H.
Qed.

(** ** The secrets *)




(** A window whose end is before its start goes through the whole run. *)
Example inverted_window_is_extracted :
  exists w',
    get_and_transfer_api_data_to_s3 echo_engine sample_globals
      (interval_context scenario_end scenario_start) empty_world = (inr tt, w') /\
    objects w' !! destination "2025-10-21"
    = Some ("rows of " ++ source_url "2025-10-21" "2025-10-20").
Proof.
  eexists. split.
  - apply (task_success echo_engine sample_globals _ empty_world
             "2025-10-21" "2025-10-20");
      [ now apply plain_run_interval_context
      | apply get_dates_interval_context | reflexivity.. ].
  - cbn. apply lookup_insert_eq.
Qed.

(** * Further properties of the module *)

(** ** Failures before the engine is reached *)

(** X1: when the window cannot be computed, the task raises the
    exception of [get_dates] and has done nothing: no log line, no
    connection, no lookup, no object. *)
Theorem window_failure_has_no_effect E G (context : gmap string value) w e :
  get_dates context = inl e ->
  get_and_transfer_api_data_to_s3 E G context w = (inl e, w).
Proof. intros H. now rewrite task_run, H. Qed.

Lemma window_failure_has_no_effect_witness :
  get_and_transfer_api_data_to_s3 healthy_engine sample_globals ∅ empty_world
  = (inl (Exn "KeyError" "data_interval_start"), empty_world).
Proof.
  apply (window_failure_has_no_effect healthy_engine sample_globals ∅ empty_world).
  reflexivity.
Defined.

(** X2: a context without one of the two interval entries makes
    [get_dates] raise [KeyError] for the first entry that is missing,
    the start before the end. *)
Theorem get_dates_missing_key (context : gmap string value) :
  context !! "data_interval_start" = None \/
  ((exists a, context !! "data_interval_start" = Some (VDateTime a)) /\
   context !! "data_interval_end" = None) ->
  exists key,
    get_dates context = inl (Exn "KeyError" key) /\
    context !! key = None /\
    (key = "data_interval_end" -> context !! "data_interval_start" <> None).
Proof.
  unfold get_dates, context_lookup.
  intros [Hs | [[a Hs] He]].
  - exists "data_interval_start". rewrite Hs.
    repeat split; try assumption; discriminate.
  - exists "data_interval_end". rewrite Hs, He. cbn.
    repeat split; try assumption; discriminate.
Qed.

Lemma get_dates_missing_key_witness :
  exists key,
    get_dates (<["data_interval_start" := VDateTime scenario_start]> ∅)
    = inl (Exn "KeyError" key) /\
    (<["data_interval_start" := VDateTime scenario_start]> ∅ : gmap string value)
      !! key = None /\
    (key = "data_interval_end" ->
     (<["data_interval_start" := VDateTime scenario_start]> ∅ : gmap string value)
       !! "data_interval_start" <> None).
Proof.
  apply (get_dates_missing_key
           (<["data_interval_start" := VDateTime scenario_start]> ∅)).
  right. split; [exists scenario_start |]; reflexivity.
Defined.

(** X3: loading the module fails with [KeyError] when a secret is not in
    the Variable store.  Without [access_key] the load stops at the first
    lookup and [secret_key] is never asked for; with [access_key] but
    without [secret_key] both have been looked up. *)
Theorem load_module_missing_secret (w : World) :
  variables w !! "access_key" = None \/ variables w !! "secret_key" = None ->
  exists e w',
    load_module w = (inl e, w') /\
    exn_class e = "KeyError" /\
    variables w' = variables w /\
    variable_reads w'
    = (variable_reads w ++
         match variables w !! "access_key" with
         | None => ["access_key"]
         | Some _ => ["access_key"; "secret_key"]
         end)%list.
Proof.
  intros H. unfold load_module, mbind, M_bind, Variable_get.
  destruct (variables w !! "access_key") as [ak |] eqn:Hak.
  - destruct H as [H | H]; [discriminate |].
    cbn [variables]. rewrite H. eexists _, _. split; [reflexivity |].
    cbn. now rewrite <- app_assoc.
  - eexists _, _. split; [reflexivity |]. now cbn.
Qed.

Lemma load_module_missing_secret_witness :
  exists e w',
    load_module empty_world = (inl e, w') /\
    exn_class e = "KeyError" /\
    variables w' = ∅ /\
    variable_reads w' = ["access_key"].
Proof.
  destruct (load_module_missing_secret empty_world) as (e & w' & H1 & H2 & H3 & H4);
    [left; reflexivity |].
  exists e, w'. auto.
Defined.

(** ** What a run leaves behind *)

Lemma fresh_ids_returned w objs urls lines :
  fresh_ids w ->
  fresh_ids (mkWorld (variables w) (variable_reads w) objs urls
                     (delete (next_connection w) (connections w))
                     (S (next_connection w)) lines) /\
  delete (next_connection w) (connections w) = connections w.
Proof.
  intros Hf. assert (Hd : delete (next_connection w) (connections w) = connections w)
    by (apply delete_id, Hf; lia).
  split; [| exact Hd].
  intros c Hc. cbn in *. rewrite Hd. apply Hf. lia.
Qed.

(** X4: a run that returns, with credentials and window free of
    apostrophes, has read the URL of its window once and stored, at the
    destination of its window, exactly the rows the source returned for
    that URL; it has changed no other object. *)
Theorem successful_run_stores_fetched_rows E G (context : gmap string value)
    w w' :
  plain_run G context ->
  get_and_transfer_api_data_to_s3 E G context w = (inr tt, w') ->
  exists start_date end_date rows,
    get_dates context = inr (start_date, end_date) /\
    read_csv_auto E (source_url start_date end_date) = inr rows /\
    fetched w' = (fetched w ++ [source_url start_date end_date])%list /\
    objects w' !! destination start_date = Some rows /\
    forall target, target <> destination start_date ->
                   objects w' !! target = objects w !! target.
Proof.
  intros Hp H.
  apply (task_returned _ _ _ _ _ Hp) in H as (s & e & rows & Hd & _ & Hr & _ & ->).
  exists s, e, rows. cbn [objects fetched]. repeat split; try assumption.
  - apply lookup_insert_eq.
  - intros target Hne. now apply lookup_insert_ne.
Qed.

Lemma successful_run_stores_fetched_rows_witness :
  let w := set_object "s3://prod/raw/earthquake/2025-10-19/2025-10-19_00-00-00.gz.parquet"
                      "earlier rows" empty_world in
  let w' := snd (get_and_transfer_api_data_to_s3 echo_engine sample_globals
                   (interval_context scenario_start scenario_end) w) in
  fetched w' = [source_url "2025-10-20" "2025-10-21"] /\
  objects w' !! destination "2025-10-20"
  = Some ("rows of " ++ source_url "2025-10-20" "2025-10-21") /\
  objects w' !! destination "2025-10-19" = Some "earlier rows".
Proof.
  intros w w'.
  destruct (successful_run_stores_fetched_rows echo_engine sample_globals
              (interval_context scenario_start scenario_end) w w')
    as (s & e & rows & Hd & Hr & Hf & Ho & Hframe);
    [now apply plain_run_interval_context | vm_compute; reflexivity |].
  rewrite get_dates_interval_context in Hd. injection Hd as <- <-.
  injection Hr as <-. split; [exact Hf |]. split; [exact Ho |].
  rewrite Hframe by discriminate. reflexivity.
Defined.

(** X5: a run that returns has closed the connection it opened: when
    connection numbers are fresh, the open connections after the run are
    those before it, and the numbers are fresh again. *)
Theorem successful_run_closes_its_connection E G (context : gmap string value)
    w w' :
  fresh_ids w ->
  get_and_transfer_api_data_to_s3 E G context w = (inr tt, w') ->
  connections w' = connections w /\
  next_connection w' = S (next_connection w) /\
  fresh_ids w'.
Proof.
  intros Hf H.
  apply task_returned_any in H as (s & e & _ & Hc & Hn & _).
  destruct (fresh_ids_returned w (objects w') (fetched w') (log w') Hf)
    as [Hf' Hd].
  rewrite Hc, Hd. split; [reflexivity |]. split; [exact Hn |].
  intros c Hle. rewrite Hc, Hd. apply Hf. lia.
Qed.

Lemma successful_run_closes_its_connection_witness :
  let w' := snd (get_and_transfer_api_data_to_s3 echo_engine sample_globals
                   (interval_context scenario_start scenario_end) empty_world) in
  connections w' = connections empty_world /\
  next_connection w' = 1%nat /\
  fresh_ids w'.
Proof.
  intros w'.
  apply (successful_run_closes_its_connection echo_engine sample_globals
           (interval_context scenario_start scenario_end) empty_world w').
  - intros c _. apply lookup_empty.
  - vm_compute. reflexivity.
Defined.

(** X6: a run that returns has appended exactly two lines to the log,
    the start line of its window and then the success line of its start
    date. *)
Theorem successful_run_log E G (context : gmap string value) w w' :
  get_and_transfer_api_data_to_s3 E G context w = (inr tt, w') ->
  exists start_date end_date,
    get_dates context = inr (start_date, end_date) /\
    log w' = (log w ++ [start_line start_date end_date; success_line start_date])%list.
Proof.
  intros H.
  apply task_returned_any in H as (s & e & Hd & _ & _ & Hl).
  exists s, e. split; [assumption |]. rewrite Hl. now rewrite <- app_assoc.
Qed.

Lemma successful_run_log_witness :
  log (snd (get_and_transfer_api_data_to_s3 echo_engine sample_globals
              (interval_context scenario_start scenario_end) empty_world))
  = ["💻 Start load for dates: 2025-10-20/2025-10-21";
     "✅ Download for date success: 2025-10-20"].
Proof.
  destruct (successful_run_log echo_engine sample_globals
              (interval_context scenario_start scenario_end) empty_world
              (snd (get_and_transfer_api_data_to_s3 echo_engine sample_globals
                      (interval_context scenario_start scenario_end) empty_world)))
    as (s & e & Hd & Hl); [vm_compute; reflexivity |].
  rewrite get_dates_interval_context in Hd. injection Hd as <- <-.
  exact Hl.
Defined.

(** X7: a failed attempt followed by a successful one for the same
    context, as on a retry, with credentials and window free of
    apostrophes.  Whatever has become of the failed attempt's connection
    in between, the object is stored with the rows of the second
    attempt, and the log holds the start line twice and the success line
    once. *)
Theorem retry_after_failure E1 E2 G1 G2 (context : gmap string value)
    w w1 w1' w2 err :
  plain_run G1 context -> plain_run G2 context ->
  get_and_transfer_api_data_to_s3 E1 G1 context w = (inl err, w1) ->
  objects w1' = objects w1 -> log w1' = log w1 ->
  get_and_transfer_api_data_to_s3 E2 G2 context w1' = (inr tt, w2) ->
  exists start_date end_date rows,
    get_dates context = inr (start_date, end_date) /\
    read_csv_auto E2 (source_url start_date end_date) = inr rows /\
    objects w2 = <[destination start_date := rows]> (objects w) /\
    log w2 = (log w ++ [start_line start_date end_date;
                        start_line start_date end_date;
                        success_line start_date])%list.
Proof.
  intros Hp1 Hp2 H1 Ho Hl H2.
  apply (task_returned _ _ _ _ _ Hp2) in H2
    as (s & e & rows & Hd & _ & Hr & _ & ->).
  destruct (task_raised _ _ _ _ _ _ _ _ Hp1 Hd H1) as [_ (k & urls & ->)].
  exists s, e, rows. cbn [objects log] in *. rewrite Ho, Hl.
  repeat split; try assumption. now rewrite <- !app_assoc.
Qed.

Lemma retry_after_failure_witness :
  let context := interval_context scenario_start scenario_end in
  let w1 := snd (get_and_transfer_api_data_to_s3 failing_engine sample_globals
                   context empty_world) in
  let w1' := snd (con_close 0%nat w1) in
  let w2 := snd (get_and_transfer_api_data_to_s3 echo_engine sample_globals
                   context w1') in
  exists start_date end_date rows,
    get_dates context = inr (start_date, end_date) /\
    read_csv_auto echo_engine (source_url start_date end_date) = inr rows /\
    objects w2 = <[destination start_date := rows]> (objects empty_world) /\
    log w2 = (log empty_world ++ [start_line start_date end_date;
                                  start_line start_date end_date;
                                  success_line start_date])%list.
Proof.
  intros context w1 w1' w2.
  apply (retry_after_failure failing_engine echo_engine sample_globals
           sample_globals context empty_world w1 w1' w2
           (Exn "HTTPException"
                ("HTTP Error: 503 for " ++ source_url "2025-10-20" "2025-10-21"))).
  - now apply plain_run_interval_context.
  - now apply plain_run_interval_context.
  - vm_compute. reflexivity.
  - reflexivity.
  - reflexivity.
  - vm_compute. reflexivity.
Defined.

(** ** When a run succeeds and what it raises *)

(** X8: once the window is computed, and when neither the credentials
    nor the window hold an apostrophe, the task returns exactly when the
    [httpfs] extension installs, the source returns rows for the window's
    URL, and the store accepts them at the destination under the
    connection's settings. *)
Theorem task_returns_iff E G (context : gmap string value) w
    start_date end_date :
  plain_run G context ->
  get_dates context = inr (start_date, end_date) ->
  (exists w', get_and_transfer_api_data_to_s3 E G context w = (inr tt, w')) <->
  (install_extension E "httpfs" = None /\
   exists rows,
     read_csv_auto E (source_url start_date end_date) = inr rows /\
     put_object E (settings (configured G)) (destination start_date) rows = None).
Proof.
  intros Hpl Hd. split.
  - intros [w' H].
    apply (task_returned _ _ _ _ _ Hpl) in H
      as (s & e & rows & Hd' & Hi & Hr & Hp & _).
    rewrite Hd in Hd'. injection Hd' as <- <-. eauto.
  - intros (Hi & rows & Hr & Hp). eexists.
    exact (task_success E G context w _ _ rows Hpl Hd Hi Hr Hp).
Qed.

Lemma task_returns_iff_witness :
  ~ exists w',
      get_and_transfer_api_data_to_s3 full_store_engine sample_globals
        (interval_context scenario_start scenario_end) empty_world = (inr tt, w').
Proof.
  intros H.
  apply (task_returns_iff full_store_engine sample_globals
           (interval_context scenario_start scenario_end) empty_world
           "2025-10-20" "2025-10-21") in H;
    [| now apply plain_run_interval_context | apply get_dates_interval_context].
  destruct H as (_ & rows & _ & Hp). discriminate Hp.
Defined.

(** X9: with credentials and window free of apostrophes, the exception
    of a failed run is that of the first engine step that failed, in the
    order install, fetch, store: a failed install hides what the source
    would have answered, a failed fetch hides the store.  In each case
    nothing has been stored. *)
Theorem task_raises_first_failure E G (context : gmap string value) w
    start_date end_date err :
  plain_run G context ->
  get_dates context = inr (start_date, end_date) ->
  (exists w', get_and_transfer_api_data_to_s3 E G context w = (inl err, w') /\
              objects w' = objects w) <->
  (install_extension E "httpfs" = Some err \/
   (install_extension E "httpfs" = None /\
    read_csv_auto E (source_url start_date end_date) = inl err) \/
   (install_extension E "httpfs" = None /\
    exists rows,
      read_csv_auto E (source_url start_date end_date) = inr rows /\
      put_object E (settings (configured G)) (destination start_date) rows
      = Some err)).
Proof.
  intros Hp Hd. split.
  - intros (w' & H & _). now destruct (task_raised _ _ _ _ _ _ _ _ Hp Hd H).
  - rewrite (task_run_plain E G context w _ _ Hp Hd). cbv zeta.
    intros [Hi | [[Hi Hr] | (Hi & rows & Hr & Hp')]].
    + rewrite Hi. eauto.
    + rewrite Hi, Hr. eauto.
    + rewrite Hi, Hr, Hp'. eauto.
Qed.

Lemma task_raises_first_failure_witness :
  exists w',
    get_and_transfer_api_data_to_s3 offline_engine sample_globals
      (interval_context scenario_start scenario_end) empty_world
    = (inl (Exn "IOException" "Failed to download extension httpfs"), w') /\
    objects w' = objects empty_world.
Proof.
  apply (task_raises_first_failure offline_engine sample_globals
           (interval_context scenario_start scenario_end) empty_world
           "2025-10-20" "2025-10-21").
  - now apply plain_run_interval_context.
  - apply get_dates_interval_context.
  - left. reflexivity.
Defined.

(** ** One object per start date *)

Lemma length_append (a b : string) :
  String.length (a ++ b) = (String.length a + String.length b)%nat.
Proof.
  induction a as [| c a IH]; [reflexivity |].
  rewrite append_cons. cbn. now rewrite IH.
Qed.

Lemma append_same_length (a b x y : string) :
  String.length a = String.length b -> a ++ x = b ++ y -> a = b /\ x = y.
Proof.
  revert b. induction a as [| c a IH]; intros [| d b] Hl; try discriminate.
  - auto.
  - rewrite !append_cons. intros [= -> H]. injection Hl as Hl.
    destruct (IH b Hl H) as [-> ->]. auto.
Qed.

Lemma destination_start_date (s1 s2 : string) :
  destination s1 = destination s2 -> s1 = s2.
Proof.
  unfold destination, destination_of, LAYER, SOURCE. intros H.
  do 5 apply append_inv_head in H.
  assert (Hl : String.length s1 = String.length s2).
  { apply (f_equal String.length) in H.
    rewrite !length_append in H. cbn in H. lia. }
  now destruct (append_same_length _ _ _ _ Hl H).
Qed.

(** X10: the destination determines the start date: two start dates
    with the same destination are equal, so runs for different start
    dates never write the same object. *)
Theorem destination_injective (s1 s2 : string) :
  destination s1 = destination s2 <-> s1 = s2.
Proof.
  split; [apply destination_start_date | now intros ->].
Qed.

Lemma destination_injective_witness : "2025-10-20" = "2025-10-20".
Proof.
  apply (destination_injective "2025-10-20" "2025-10-20"). reflexivity.
Defined.

(** X11: two runs in a row for different start dates, with credentials
    and windows free of apostrophes, keep both objects: after the second
    run the store holds the rows of the first at the first destination
    and the rows of the second at the second. *)
Theorem different_start_dates_keep_both E1 E2 G1 G2
    (c1 c2 : gmap string value) s1 e1 s2 e2 w0 w1 w2 :
  plain_run G1 c1 -> plain_run G2 c2 ->
  get_dates c1 = inr (s1, e1) ->
  get_dates c2 = inr (s2, e2) ->
  s1 <> s2 ->
  get_and_transfer_api_data_to_s3 E1 G1 c1 w0 = (inr tt, w1) ->
  get_and_transfer_api_data_to_s3 E2 G2 c2 w1 = (inr tt, w2) ->
  exists rows1 rows2,
    read_csv_auto E1 (source_url s1 e1) = inr rows1 /\
    read_csv_auto E2 (source_url s2 e2) = inr rows2 /\
    objects w2 !! destination s1 = Some rows1 /\
    objects w2 !! destination s2 = Some rows2.
Proof.
  intros Hp1 Hp2 Hd1 Hd2 Hne H1 H2.
  apply (task_returned _ _ _ _ _ Hp1) in H1
    as (s & e & rows1 & Hd1' & _ & Hr1 & _ & ->).
  rewrite Hd1 in Hd1'. injection Hd1' as <- <-.
  apply (task_returned _ _ _ _ _ Hp2) in H2
    as (s & e & rows2 & Hd2' & _ & Hr2 & _ & ->).
  rewrite Hd2 in Hd2'. injection Hd2' as <- <-.
  exists rows1, rows2. cbn [objects]. repeat split; try assumption.
  - rewrite lookup_insert_ne
      by (intros H; apply Hne; symmetry; now apply destination_start_date).
    apply lookup_insert_eq.
  - apply lookup_insert_eq.
Qed.

Lemma different_start_dates_keep_both_witness :
  let c1 := interval_context scenario_start scenario_end in
  let c2 := interval_context scenario_end scenario_later_end in
  let w1 := snd (get_and_transfer_api_data_to_s3 echo_engine sample_globals c1
                   empty_world) in
  let w2 := snd (get_and_transfer_api_data_to_s3 echo_engine sample_globals c2 w1) in
  objects w2 !! destination "2025-10-20"
  = Some ("rows of " ++ source_url "2025-10-20" "2025-10-21") /\
  objects w2 !! destination "2025-10-21"
  = Some ("rows of " ++ source_url "2025-10-21" "2025-10-22").
Proof.
  intros c1 c2 w1 w2.
  destruct (different_start_dates_keep_both echo_engine echo_engine
              sample_globals sample_globals c1 c2
              "2025-10-20" "2025-10-21" "2025-10-21" "2025-10-22"
              empty_world w1 w2)
    as (rows1 & rows2 & Hr1 & Hr2 & Ho1 & Ho2);
    [ now apply plain_run_interval_context | now apply plain_run_interval_context
    | apply get_dates_interval_context | apply get_dates_interval_context
    | discriminate | vm_compute; reflexivity | vm_compute; reflexivity | ].
  injection Hr1 as <-. injection Hr2 as <-. auto.
Defined.

(** ** The window and the length of the interval *)


(** X12: for an interval whose two datetimes have the same UTC offset
    and that lasts a day or more, the two dates of the window are
    different, the start before the end; when it lasts exactly a day the
    end date is the day after the start date.  (With two offsets this
    fails, see [berlin_day_equal_dates].) *)
Theorem day_long_interval_distinct_dates (context : gmap string value) a b :
  context !! "data_interval_start" = Some (VDateTime a) ->
  context !! "data_interval_end" = Some (VDateTime b) ->
  wf a -> wf b -> utcoffset a = utcoffset b -> 1000 <= year a ->
  instant a + 86400 * 1000000 <= instant b ->
  exists start_date end_date,
    get_dates context = inr (start_date, end_date) /\
    start_date <> end_date /\
    ymd2ord (year a) (month a) (day a) < ymd2ord (year b) (month b) (day b) /\
    (instant b = instant a + 86400 * 1000000 ->
     ymd2ord (year b) (month b) (day b) = ymd2ord (year a) (month a) (day a) + 1).
Proof.
  intros Hca Hcb Ha Hb Hz Hy Hlen.
  assert (Hlt : ltb a b = true) by (apply Z.ltb_lt; lia).
  pose proof (ltb_same_zone_date_leb a b Ha Hb Hz Hlt) as Hle.
  assert (Hyb : 1000 <= year b).
  { unfold date_leb, date_of in Hle.
    destruct (Z.ltb_spec (year a) (year b)); [lia |].
    destruct (Z.eqb_spec (year a) (year b)); [lia | discriminate]. }
  destruct (format_date_shape a Ha Hy) as [_ Hpa].
  destruct (format_date_shape b Hb Hyb) as [_ Hpb].
  assert (Hord : ymd2ord (year a) (month a) (day a)
                 < ymd2ord (year b) (month b) (day b)).
  { unfold instant, local_seconds in Hlen.
    destruct Ha as (_ & _ & _ & ? & ? & ? & ? & _).
    destruct Hb as (_ & _ & _ & ? & ? & ? & ? & _). lia. }
  exists (format a "YYYY-MM-DD"), (format b "YYYY-MM-DD").
  split; [now apply get_dates_datetimes |]. split; [| split; [exact Hord |]].
  - intros Heq. rewrite Heq, Hpb in Hpa. injection Hpa as Hy' Hm' Hd'.
    rewrite Hy', Hm', Hd' in Hord. lia.
  - intros Hday. unfold instant, local_seconds in Hday.
    destruct Ha as (_ & _ & _ & ? & ? & ? & ? & _).
    destruct Hb as (_ & _ & _ & ? & ? & ? & ? & _). lia.
Qed.

Lemma day_long_interval_distinct_dates_witness :
  instant scenario_end = instant scenario_start + 86400 * 1000000 /\
  exists start_date end_date,
    get_dates (interval_context scenario_start scenario_end)
    = inr (start_date, end_date) /\
    start_date <> end_date /\
    ymd2ord 2025 10 20 < ymd2ord 2025 10 21 /\
    (instant scenario_end = instant scenario_start + 86400 * 1000000 ->
     ymd2ord 2025 10 21 = ymd2ord 2025 10 20 + 1).
Proof.
  split; [reflexivity |].
  apply (day_long_interval_distinct_dates
           (interval_context scenario_start scenario_end)
           scenario_start scenario_end);
    [ apply interval_context_start | apply interval_context_end
    | apply wfb_wf; reflexivity | apply wfb_wf; reflexivity
    | reflexivity | cbn; lia | vm_compute; discriminate ].
Defined.



(** X14: for windows of [YYYY-MM-DD] strings the query URL determines
    the window: different windows are fetched from different URLs. *)
Theorem source_url_injective_on_dates (s1 e1 s2 e2 : string) :
  is_ymd s1 = true -> is_ymd e1 = true ->
  is_ymd s2 = true -> is_ymd e2 = true ->
  source_url s1 e1 = source_url s2 e2 -> s1 = s2 /\ e1 = e2.
Proof.
  intros Hs1 He1 Hs2 He2 H.
  apply (f_equal query_params) in H.
  rewrite !query_params_window in H by assumption.
  injection H as -> ->. auto.
Qed.

Lemma source_url_injective_on_dates_witness :
  "2025-10-20" = "2025-10-20" /\ "2025-10-21" = "2025-10-21".
Proof.
  apply (source_url_injective_on_dates
           "2025-10-20" "2025-10-21" "2025-10-20" "2025-10-21");
    reflexivity.
Defined.

(** ** From the interval to the request and the object *)

(** X15: the dates survive the way into the request: for well-formed
    interval datetimes of four-digit years, the URL of the window has
    exactly the parameters [format=csv], [starttime] and [endtime], and
    the last two read back as the calendar dates of the interval's start
    and end. *)
Theorem request_carries_interval_dates (context : gmap string value) a b :
  context !! "data_interval_start" = Some (VDateTime a) ->
  context !! "data_interval_end" = Some (VDateTime b) ->
  wf a -> wf b -> 1000 <= year a -> 1000 <= year b ->
  exists start_date end_date,
    get_dates context = inr (start_date, end_date) /\
    query_params (source_url start_date end_date)
    = [("format", "csv"); ("starttime", start_date); ("endtime", end_date)] /\
    parse_ymd start_date = Some (date_of a) /\
    parse_ymd end_date = Some (date_of b).
Proof.
  intros Hca Hcb Ha Hb Hya Hyb.
  destruct (format_date_shape a Ha Hya) as [Hsa Hpa].
  destruct (format_date_shape b Hb Hyb) as [Hsb Hpb].
  exists (format a "YYYY-MM-DD"), (format b "YYYY-MM-DD").
  split; [now apply get_dates_datetimes |].
  split; [now apply query_params_window | auto].
Qed.

Lemma request_carries_interval_dates_witness :
  exists start_date end_date,
    get_dates (interval_context scenario_start scenario_later_end)
    = inr (start_date, end_date) /\
    query_params (source_url start_date end_date)
    = [("format", "csv"); ("starttime", start_date); ("endtime", end_date)] /\
    parse_ymd start_date = Some (2025, 10, 20) /\
    parse_ymd end_date = Some (2025, 10, 22).
Proof.
  apply (request_carries_interval_dates
           (interval_context scenario_start scenario_later_end)
           scenario_start scenario_later_end);
    [ apply interval_context_start | apply interval_context_end
    | apply wfb_wf; reflexivity | apply wfb_wf; reflexivity
    | cbn; lia | cbn; lia ].
Defined.

(** Whatever the start date, the destination is an object of the
    bucket [prod] whose key is the layer, the source, the start date as a
    directory and the start date again in the file name. *)
Lemma destination_bucket_and_key (start_date : string) :
  s3_location (destination start_date)
  = Some ("prod",
          LAYER ++ "/" ++ SOURCE ++ "/" ++ start_date ++ "/"
            ++ start_date ++ "_00-00-00.gz.parquet").
Proof.
  exact (break_at_first "/" "prod"
           (LAYER ++ "/" ++ SOURCE ++ "/" ++ start_date ++ "/"
              ++ start_date ++ "_00-00-00.gz.parquet") eq_refl).
Qed.
